(** * subset_beagle: sample subsetting of Beagle genotype-likelihood files

    A shallow embedding of [subset_beagle.py] and the properties of its
    column selection, sample-list loading, output naming and run
    orchestration.

    Conventions of the embedding.
    - A Python [str] is a [string]; every [ascii] stands for one character.
    - A Python [set] of strings is a [gset string].
    - Python integers that are indices or column numbers are never negative
      and are unbounded, so they are [nat]; [total_samples] can be negative
      and is a [Z].
    - [sys.exit(1)] after a printed message is the left injection of a sum,
      carrying a [failure] that names the message. *)

From Stdlib Require Import ZArith Ascii String Lia.
From stdpp Require Import gmap strings list sorting pretty.

(** ** Python string primitives used by the script *)

Module PyStr.

(** [str.isspace] on one character, for the characters an [ascii] can hold:
    TAB, LF, VT, FF, CR, the four separators 28..31, SPACE, NEL and NBSP. *)
Definition isspace (c : ascii) : bool :=
  let n := nat_of_ascii c in
  (((9 <=? n) && (n <=? 13)) || ((28 <=? n) && (n <=? 32))
   || (n =? 133) || (n =? 160))%nat.

(** [s.lstrip()] *)
Fixpoint lstrip (s : string) : string :=
  match s with
  | EmptyString => EmptyString
  | String c r => if isspace c then lstrip r else s
  end.

(** [s.rstrip()] *)
Fixpoint rstrip (s : string) : string :=
  match s with
  | EmptyString => EmptyString
  | String c r =>
      match rstrip r with
      | EmptyString => if isspace c then EmptyString else String c EmptyString
      | r' => String c r'
      end
  end.

(** [s.strip()] *)
Definition strip (s : string) : string := rstrip (lstrip s).

(** [s.split(sep)] for a one-character separator: one more piece than there
    are separators, so never the empty list. *)
Fixpoint split (sep : ascii) (s : string) : list string :=
  match s with
  | EmptyString => [EmptyString]
  | String c r =>
      if Ascii.eqb c sep then EmptyString :: split sep r
      else match split sep r with
           | w :: ws => String c w :: ws
           | [] => [String c EmptyString]
           end
  end.

(** [s.endswith(suffix)] *)
Definition endswith (s suffix : string) : bool :=
  (String.length suffix <=? String.length s)%nat
  && String.eqb
       (substring (String.length s - String.length suffix)
                  (String.length suffix) s)
       suffix.

(** [sep.join(parts)] *)
Fixpoint join (sep : string) (parts : list string) : string :=
  match parts with
  | [] => EmptyString
  | [p] => p
  | p :: ps => p +:+ sep +:+ join sep ps
  end.

(** [range(start, stop, step)] for a positive step. *)
Definition range (start stop step : nat) : list nat :=
  map (fun k => start + k * step) (seq 0 ((stop - start + (step - 1)) / step)).

End PyStr.

Definition TAB : ascii := ascii_of_nat 9.
Definition LF : ascii := ascii_of_nat 10.

(** ** Failures

    Every failure of the script prints one message and calls [sys.exit(1)];
    the constructors name the messages. *)
Inductive failure : Type :=
  | NotFound (path : string)      (* "Error: ... file '...' not found." *)
  | ReadError                     (* "Error reading ... file: ..." *)
  | EmptySampleList               (* "Error: No samples found in the sample list file." *)
  | EmptySelection                (* "Error: No samples would remain after subsetting." *)
  | TransformFailed (code : Z)    (* "Error: AWK command failed with return code ..." *)
  | OutputNotCreated              (* "Error: Output file was not created." *)
  | UnexpectedError               (* "Unexpected error: ..." *)
  | Uncaught.                     (* an exception no handler catches: traceback *)

Definition exit_status (f : failure) : Z := 1.

(** ** Column selection: [find_columns_to_keep] *)

Record selection : Type := Selection {
  columns_to_keep : list nat;
  all_samples : gset string;
  samples_kept : gset string
}.

(** [columns_to_keep = [1, 2, 3]], [all_samples = set()], [samples_kept = set()] *)
Definition selection_init : selection :=
  Selection [1; 2; 3] ∅ ∅.

(** [(sample_id not in sample_list) if remove_mode else (sample_id in sample_list)] *)
Definition should_keep (sample_list : gset string) (remove_mode : bool)
    (sample_id : string) : bool :=
  if remove_mode then negb (bool_decide (sample_id ∈ sample_list))
  else bool_decide (sample_id ∈ sample_list).

(** One iteration of the loop over [i].  Under the guard [i < len(fields)]
    the read [fields[i]] cannot raise, so the [None] branch is dead. *)
Definition selection_step (fields : list string) (sample_list : gset string)
    (remove_mode : bool) (st : selection) (i : nat) : selection :=
  if bool_decide (i < length fields) then
    match fields !! i with
    | Some sample_id =>
        let all' := all_samples st ∪ {[sample_id]} in
        if should_keep sample_list remove_mode sample_id then
          Selection (columns_to_keep st ++ [i + 1; i + 2; i + 3]) all'
                    (samples_kept st ∪ {[sample_id]})
        else Selection (columns_to_keep st) all' (samples_kept st)
    | None => st
    end
  else st.

(** The state after [for i in range(3, len(fields), 3): ...]. *)
Definition selection_pass (fields : list string) (sample_list : gset string)
    (remove_mode : bool) : selection :=
  fold_left (selection_step fields sample_list remove_mode)
            (PyStr.range 3 (length fields) 3) selection_init.

(** [find_columns_to_keep(header_line, sample_list, remove_mode)]: the
    triple [(columns_to_keep, samples_kept, samples_removed)], or the exit
    taken when [samples_kept] is empty. *)
Definition find_columns_to_keep (header_line : string)
    (sample_list : gset string) (remove_mode : bool)
    : failure + (list nat * gset string * gset string) :=
  let fields := PyStr.split TAB header_line in
  let st := selection_pass fields sample_list remove_mode in
  let samples_removed := all_samples st ∖ samples_kept st in
  if bool_decide (samples_kept st = ∅) then inl EmptySelection
  else inr (columns_to_keep st, samples_kept st, samples_removed).

(** The header of the worked scenarios, [m a1 a2 S1 S1 S1 S2 S2 S2 S3 S3 S3]
    with tabs between the fields. *)
Definition header_of (fields : list string) : string :=
  PyStr.join (String TAB EmptyString) fields.

Definition scenario_header : string :=
  header_of ["m"; "a1"; "a2"; "S1"; "S1"; "S1"; "S2"; "S2"; "S2"; "S3"; "S3"; "S3"].

(** ** The world of one run

    The script talks to the file system and to one child process.  A
    [world] answers each of these calls; the run is a function of it. *)

Inductive io_result (A : Type) : Type :=
  | IoOk (a : A)
  | IoNotFound          (* FileNotFoundError *)
  | IoFailed.           (* any other exception *)
Arguments IoOk {A} a.
Arguments IoNotFound {A}.
Arguments IoFailed {A}.

Inductive proc_result : Type :=
  | ProcRaised                                  (* Popen or the reads raised *)
  | ProcExited (stdout : list string) (return_code : Z).

Record world : Type := World {
  path_exists : string -> bool;                 (* os.path.exists, before the pipeline *)
  open_lines : string -> io_result (list string);   (* open(p, 'r'), line by line *)
  open_readline : string -> io_result string;   (* open(p, 'r').readline() *)
  gzip_readline : string -> io_result string;   (* gzip.open(p, 'rt').readline() *)
  getsize : string -> option nat;               (* os.path.getsize; None: OSError *)
  pv_available : bool;                          (* check_pv_available() *)
  popen : list string -> proc_result;           (* Popen(cmd) ... process.wait() *)
  path_exists_after : string -> bool;           (* os.path.exists, after the pipeline *)
  getsize_after : string -> option nat          (* os.path.getsize, after the pipeline *)
}.

(** What the script prints, with the values the text is formatted from. *)
Inductive message : Type :=
  | MsgBanner
  | MsgReadingList (path : string)
  | MsgFound (n : nat)
  | MsgReadingHeader (path : string)
  | MsgTotalSamples (n : Z)
  | MsgCalculating
  | MsgMode (remove_mode : bool)
  | MsgSamplesKept (n : nat)
  | MsgSamplesRemoved (n : nat)
  | MsgInListKept (n : nat)
  | MsgWarnNotFound (absent : gset string)      (* prints [sorted(absent)] *)
  | MsgTotalColumns (n : nat)
  | MsgProcessing (input_file output_file : string)
  | MsgProgress
  | MsgInstallPv
  | MsgPvLine (line : string)
  | MsgSuccess (output_file : string) (output_size : nat)
  | MsgError (f : failure).

Inductive event : Type :=
  | Printed (m : message)
  | Exists (path : string)
  | ReadList (path : string)
  | ReadHeader (path : string)
  | GetSize (path : string)
  | PvCheck
  | Spawn (cmd : list string).

(** A run: the events so far, and either the failure that ended it or a
    value. *)
Definition Run (A : Type) : Type := list event * (failure + A).

Definition ret {A} (a : A) : Run A := ([], inr a).

Definition bind {A B} (m : Run A) (k : A -> Run B) : Run B :=
  match m with
  | (t, inl f) => (t, inl f)
  | (t, inr a) => let '(t', r) := k a in (t ++ t', r)
  end.

Declare Scope run_scope.
Delimit Scope run_scope with run.
Notation "x <- m ;; k" := (bind m (fun x => k))
  (at level 100, m at next level, right associativity) : run_scope.
Notation "m ;; k" := (bind m (fun _ => k))
  (at level 100, right associativity) : run_scope.
Open Scope run_scope.

Definition emit (e : event) : Run unit := ([e], inr tt).
Definition print (m : message) : Run unit := emit (Printed m).

(** [print(message); sys.exit(1)] *)
Definition fail {A} (f : failure) : Run A := ([Printed (MsgError f)], inl f).

(** An exception that reaches the top level. *)
Definition crash {A} : Run A := ([], inl Uncaught).

Definition trace {A} (r : Run A) : list event := fst r.
Definition outcome {A} (r : Run A) : failure + A := snd r.

(** ** Sample Set Loader: [read_sample_list] *)

(** The body of [for line in f]. *)
Definition add_line (samples : gset string) (line : string) : gset string :=
  let sample_id := PyStr.strip line in
  if bool_decide (sample_id = EmptyString) then samples
  else samples ∪ {[sample_id]}.

Definition collect_samples (lines : list string) : gset string :=
  fold_left add_line lines ∅.

Definition read_sample_list (w : world) (sample_list_file : string)
    : Run (gset string) :=
  emit (ReadList sample_list_file) ;;
  match open_lines w sample_list_file with
  | IoNotFound => fail (NotFound sample_list_file)
  | IoFailed => fail ReadError
  | IoOk lines =>
      let samples := collect_samples lines in
      if bool_decide (samples = ∅) then fail EmptySampleList
      else ret samples
  end.

(** ** Header Inspector: [read_header] *)

Definition read_header (w : world) (input_file : string) : Run string :=
  emit (ReadHeader input_file) ;;
  match (if PyStr.endswith input_file ".gz" then gzip_readline w input_file
         else open_readline w input_file) with
  | IoOk line => ret (PyStr.strip line)
  | IoNotFound => fail (NotFound input_file)
  | IoFailed => fail ReadError
  end.

(** ** Transform Orchestrator: [generate_awk_command] and [subset_beagle] *)

Definition DQUOTE : string := String (ascii_of_nat 34) EmptyString.

(** [','.join([f'${col}' for col in columns])] *)
Definition column_refs (columns : list nat) : string :=
  PyStr.join "," (map (fun col => "$" +:+ pretty col) columns).

(** The AWK program; backslash and [t] are two characters of the f-string's
    value. *)
Definition awk_script (columns : list nat) : string :=
  "{OFS=" +:+ DQUOTE +:+ "\t" +:+ DQUOTE +:+ "; print "
  +:+ column_refs columns +:+ "}".

Definition input_is_gz (input_file : string) : bool :=
  PyStr.endswith input_file ".gz".

Definition output_is_gz (output_file : string) : bool :=
  PyStr.endswith output_file ".gz" || PyStr.endswith output_file ".beagle.gz".

Definition pv_cmd (has_pv : bool) (file_size : nat) : string :=
  if has_pv then "pv -p -t -e -r -b -s " +:+ pretty file_size else "cat".

(** The shell pipeline, by the four cases of compression. *)
Definition pipeline (columns : list nat) (input_file output_file : string)
    (has_pv : bool) (file_size : nat) : string :=
  let awk := "awk '" +:+ awk_script columns +:+ "'" in
  let pv := pv_cmd has_pv file_size in
  if input_is_gz input_file && output_is_gz output_file then
    "zcat " +:+ input_file +:+ " | " +:+ pv +:+ " | " +:+ awk
      +:+ " | gzip > " +:+ output_file
  else if input_is_gz input_file && negb (output_is_gz output_file) then
    "zcat " +:+ input_file +:+ " | " +:+ pv +:+ " | " +:+ awk
      +:+ " > " +:+ output_file
  else if negb (input_is_gz input_file) && output_is_gz output_file then
    pv +:+ " " +:+ input_file +:+ " | " +:+ awk
      +:+ " | gzip > " +:+ output_file
  else
    pv +:+ " " +:+ input_file +:+ " | " +:+ awk +:+ " > " +:+ output_file.

(** [generate_awk_command(columns, input_file, output_file, use_progress)];
    [os.path.getsize] is called outside every [try]. *)
Definition generate_awk_command (w : world) (columns : list nat)
    (input_file output_file : string) (use_progress : bool)
    : Run (list string * bool) :=
  emit (GetSize input_file) ;;
  match getsize w input_file with
  | None => crash
  | Some file_size =>
      has_pv <- (if use_progress then emit PvCheck ;; ret (pv_available w)
                 else ret false) ;;
      ret (["bash"; "-c";
            pipeline columns input_file output_file has_pv file_size], has_pv)
  end.

(** Lines 183-185: the default extension. *)
Definition effective_output (output_file : string) : string :=
  if negb (PyStr.endswith output_file ".beagle")
     && negb (PyStr.endswith output_file ".beagle.gz")
  then output_file +:+ ".beagle" else output_file.

(** Line 195: [(len(header_line.split('\t')) - 3) // 3] *)
Definition total_samples (header_line : string) : Z :=
  (Z.of_nat (length (PyStr.split TAB header_line)) - 3) / 3.

(** Lines 210 and 216: the samples of the list that the warning names. *)
Definition not_found (remove_mode : bool)
    (sample_list samples_kept samples_removed : gset string) : gset string :=
  if remove_mode then sample_list ∖ samples_removed ∖ samples_kept
  else sample_list ∖ samples_kept.

(** Lines 204-220: the report of the selection. *)
Definition report_selection (remove_mode : bool) (sample_list : gset string)
    (columns : list nat) (samples_kept samples_removed : gset string)
    : Run unit :=
  print (MsgMode remove_mode) ;;
  print (MsgSamplesKept (size samples_kept)) ;;
  (if remove_mode then
     print (MsgSamplesRemoved (size (sample_list ∩ samples_removed))) ;;
     let removed_not_found :=
       not_found true sample_list samples_kept samples_removed in
     if bool_decide (removed_not_found = ∅) then ret tt
     else print (MsgWarnNotFound removed_not_found)
   else
     print (MsgInListKept (size samples_kept)) ;;
     let not_found_ :=
       not_found false sample_list samples_kept samples_removed in
     if bool_decide (not_found_ = ∅) then ret tt
     else print (MsgWarnNotFound not_found_)) ;;
  print (MsgTotalColumns (length columns)).

(** Lines 248-250: [for line in process.stdout: print(...)], run only
    when [pv] reports progress. *)
Definition print_progress (has_pv : bool) (stdout : list string) : Run unit :=
  if has_pv
  then fold_right (fun line k => print (MsgPvLine line) ;; k) (ret tt) stdout
  else ret tt.

(** Lines 259-269: the check of the output file.  [os.path.getsize] raising
    is caught by [except Exception]. *)
Definition check_output (w : world) (output_file : string) : Run unit :=
  emit (Exists output_file) ;;
  if path_exists_after w output_file then
    match getsize_after w output_file with
    | Some output_size => print (MsgSuccess output_file output_size)
    | None => fail UnexpectedError
    end
  else fail OutputNotCreated.

(** Lines 235-278: run the command and wait for it.  The [sys.exit(1)]
    calls inside the [try] raise [SystemExit], which [except Exception] does
    not catch. *)
Definition execute (w : world) (cmd : list string) (has_pv : bool)
    (output_file : string) : Run unit :=
  emit (Spawn cmd) ;;
  match popen w cmd with
  | ProcRaised => fail UnexpectedError
  | ProcExited stdout return_code =>
      print_progress has_pv stdout ;;
      if bool_decide (return_code ≠ 0%Z) then fail (TransformFailed return_code)
      else check_output w output_file
  end.

(** Lines 222-278: build the command, run it, check the output. *)
Definition transform (w : world) (columns : list nat)
    (input_file output_file : string) : Run unit :=
  print (MsgProcessing input_file output_file) ;;
  c <- generate_awk_command w columns input_file output_file true ;;
  let '(cmd, has_pv) := c in
  print (if has_pv then MsgProgress else MsgInstallPv) ;;
  execute w cmd has_pv output_file.

(** [sys.exit(1)] inside [find_columns_to_keep], or its return value. *)
Definition select (header_line : string) (sample_list : gset string)
    (remove_mode : bool) : Run (list nat * gset string * gset string) :=
  match find_columns_to_keep header_line sample_list remove_mode with
  | inl f => fail f
  | inr r => ret r
  end.

(** [subset_beagle(input_file, sample_list_file, output_file, remove_mode)] *)
Definition subset_beagle (w : world)
    (input_file sample_list_file output_file : string) (remove_mode : bool)
    : Run unit :=
  print MsgBanner ;;
  emit (Exists input_file) ;;
  if negb (path_exists w input_file) then fail (NotFound input_file)
  else
    let output_file := effective_output output_file in
    print (MsgReadingList sample_list_file) ;;
    sample_list <- read_sample_list w sample_list_file ;;
    print (MsgFound (size sample_list)) ;;
    print (MsgReadingHeader input_file) ;;
    header_line <- read_header w input_file ;;
    print (MsgTotalSamples (total_samples header_line)) ;;
    print MsgCalculating ;;
    sel <- select header_line sample_list remove_mode ;;
    let '(columns, kept, removed) := sel in
    report_selection remove_mode sample_list columns kept removed ;;
    transform w columns input_file output_file.

(** ** The header as the selection loop reads it *)

(** The indices [i] that the loop visits. *)
Definition sample_positions (fields : list string) : list nat :=
  PyStr.range 3 (length fields) 3.

(** The fields read as sample IDs, in header order, repetitions included. *)
Definition sample_ids (fields : list string) : list string :=
  omap (fun i => fields !! i) (sample_positions fields).

Definition header_samples (header_line : string) : gset string :=
  list_to_set (sample_ids (PyStr.split TAB header_line)).

(** The three columns appended for the sample at index [i]. *)
Definition triple (i : nat) : list nat := [i + 1; i + 2; i + 3].

(** Whether the loop keeps the sample at index [i]. *)
Definition keeps (fields : list string) (sample_list : gset string)
    (remove_mode : bool) (i : nat) : bool :=
  match fields !! i with
  | Some sample_id => should_keep sample_list remove_mode sample_id
  | None => false
  end.

Definition kept_positions (fields : list string) (sample_list : gset string)
    (remove_mode : bool) : list nat :=
  filter (fun i => keeps fields sample_list remove_mode i = true)
         (sample_positions fields).

(** ** Notions used to state the properties *)

(** Consecutive visited positions are at least three apart. *)
Definition apart (a b : nat) : Prop := a + 3 <= b.

(** A well-formed header: at least the three marker fields, then whole
    groups of three. *)
Definition whole_triples (fields : list string) : Prop :=
  ((Z.of_nat (length fields) - 3) mod 3 = 0)%Z /\ 3 <= length fields.

(** A blank line: nothing but whitespace (the line terminator included). *)
Fixpoint blank (line : string) : bool :=
  match line with
  | EmptyString => true
  | String c r => PyStr.isspace c && blank r
  end.

(** The run up to the transform stage, when every earlier stage succeeds. *)
Definition prelude_trace (input_file sample_list_file : string)
    (sample_list : gset string) (header_line : string) : list event :=
  [Printed MsgBanner; Exists input_file;
   Printed (MsgReadingList sample_list_file); ReadList sample_list_file;
   Printed (MsgFound (size sample_list));
   Printed (MsgReadingHeader input_file); ReadHeader input_file;
   Printed (MsgTotalSamples (total_samples header_line));
   Printed MsgCalculating].

(** Everything of the shell pipeline before the redirection to the output. *)
Definition pipeline_front (columns : list nat) (input_file : string)
    (has_pv : bool) (file_size : nat) : string :=
  (if input_is_gz input_file
   then "zcat " +:+ input_file +:+ " | " +:+ pv_cmd has_pv file_size
   else pv_cmd has_pv file_size +:+ " " +:+ input_file)
  +:+ " | awk '" +:+ awk_script columns +:+ "'".

(** The command that a run builds. *)
Definition command (w : world) (columns : list nat)
    (input_file output_file : string) (file_size : nat) : list string :=
  ["bash"; "-c";
   pipeline columns input_file output_file (pv_available w) file_size].

(** ** A concrete run *)

Definition NL : string := String LF EmptyString.

(** A keep list with a repeated line, a blank line and one ID, [S9], that
    the header lacks. *)
Definition keep_lines : list string :=
  ["S2" +:+ NL; NL; "  S9 " +:+ NL; "S2" +:+ NL].

(** A compressed cohort file with the scenario header, a keep list, a list
    of blank lines, a list that names the absent [S4] only, no [pv], and a
    pipeline that exits with status 0 and leaves an output file of
    [output_size] bytes. *)
Definition cohort_world (output_size : nat) : world :=
  World
    (fun p => String.eqb p "cohort.beagle.gz" || String.eqb p "keep.txt"
              || String.eqb p "blank.txt" || String.eqb p "absent.txt")
    (fun p => if String.eqb p "keep.txt" then IoOk keep_lines
              else if String.eqb p "blank.txt" then IoOk [NL; "  " +:+ NL]
              else if String.eqb p "absent.txt" then IoOk ["S4" +:+ NL]
              else IoNotFound)
    (fun p => IoNotFound)
    (fun p => if String.eqb p "cohort.beagle.gz"
              then IoOk (scenario_header +:+ NL) else IoNotFound)
    (fun p => if String.eqb p "cohort.beagle.gz" then Some 4096 else None)
    false
    (fun cmd => ProcExited [] 0)
    (fun p => String.eqb p "subset.beagle")
    (fun p => if String.eqb p "subset.beagle" then Some output_size else None).

(** A header whose last group has one field only. *)
Definition partial_header : string := header_of ["m"; "a1"; "a2"; "S1"].

(** ** Notions used to state the further properties *)

(** The commands a trace starts, in order. *)
Definition spawned (t : list event) : list (list string) :=
  omap (fun e => match e with Spawn cmd => Some cmd | _ => None end) t.

(** The failures a trace reports with an error message, in order. *)
Definition reported (t : list event) : list failure :=
  omap (fun e => match e with Printed (MsgError f) => Some f | _ => None end) t.

(** Whether a trace prints the success banner. *)
Definition announces_success (t : list event) : bool :=
  existsb (fun e => match e with Printed (MsgSuccess _ _) => true | _ => false end)
          t.

(** Every stage before the command is started succeeds: the input exists,
    the list and the header are read, the selection returns [cols], and the
    size of the input can be read. *)
Definition validated (w : world) (input_file sample_list_file : string)
    (remove_mode : bool) (sample_list : gset string) (header_line : string)
    (cols : list nat) (kept removed : gset string) (file_size : nat) : Prop :=
  path_exists w input_file = true
  /\ outcome (read_sample_list w sample_list_file) = inr sample_list
  /\ outcome (read_header w input_file) = inr header_line
  /\ find_columns_to_keep header_line sample_list remove_mode
     = inr (cols, kept, removed)
  /\ getsize w input_file = Some file_size.

(** The files a trace opens for reading. *)
Definition opened (t : list event) : list string :=
  omap (fun e => match e with
                 | ReadList p | ReadHeader p => Some p
                 | _ => None
                 end) t.

(** What can be seen of a run from outside: its exit, the files it opened
    for reading, the commands it started, the failures it reported with an
    error message, and whether it printed the success banner. *)
Record observation : Type := Observation {
  obs_outcome : failure + unit;
  obs_opened : list string;
  obs_spawned : list (list string);
  obs_reported : list failure;
  obs_success : bool
}.

Definition observe (r : Run unit) : observation :=
  Observation (outcome r) (opened (trace r)) (spawned (trace r))
              (reported (trace r)) (announces_success (trace r)).

Definition is_digit (c : ascii) : bool :=
  let n := nat_of_ascii c in ((48 <=? n) && (n <=? 57))%nat.

Fixpoint all_digits (s : string) : bool :=
  match s with
  | EmptyString => true
  | String c r => is_digit c && all_digits r
  end.

(** A world that gives the same answer for every path and command. *)
Definition uniform_world (input_there : bool)
    (lines : io_result (list string)) (first_line : io_result string)
    (input_size : option nat) (pv : bool) (proc : proc_result)
    (output_there : bool) (output_size : option nat) : world :=
  World (fun _ => input_there) (fun _ => lines) (fun _ => first_line)
        (fun _ => first_line) (fun _ => input_size) pv (fun _ => proc)
        (fun _ => output_there) (fun _ => output_size).

(** A header in which the sample [S1] occupies two groups. *)
Definition repeated_header : string :=
  header_of ["m"; "a1"; "a2"; "S1"; "S1"; "S1"; "S2"; "S2"; "S2";
             "S1"; "S1"; "S1"].

(** * Properties *)

Ltac not_in_trace Hin :=
  repeat (apply elem_of_cons in Hin as [Hin|Hin]; [discriminate|]);
  by apply elem_of_nil in Hin.

(** ** The worked scenario *)

Example scenario_A :
  find_columns_to_keep scenario_header {[ "S2" ]} false
  = inr ([1; 2; 3; 7; 8; 9], {[ "S2" ]}, {[ "S1"; "S3" ]}).
Proof. vm_compute. reflexivity. Qed.

(** ** The string primitives *)

Lemma append_cons (x : ascii) (a b : string) :
  String x a +:+ b = String x (a +:+ b).
Proof. reflexivity. Qed.

Lemma append_length (a b : string) :
  String.length (a +:+ b) = String.length a + String.length b.
Proof.
  induction a as [|x a IH]; [reflexivity|].
  rewrite append_cons. simpl. by rewrite IH.
Qed.

Lemma append_assoc (a b c : string) : (a +:+ b) +:+ c = a +:+ (b +:+ c).
Proof.
  induction a as [|x a IH]; [reflexivity|].
  rewrite !append_cons. by rewrite IH.
Qed.

Lemma substring_all (s : string) : substring 0 (String.length s) s = s.
Proof. induction s as [|c s IH]; simpl; [reflexivity|]. by rewrite IH. Qed.

Lemma substring_after (p s : string) :
  substring (String.length p) (String.length s) (p +:+ s) = s.
Proof.
  induction p as [|c p IH]; [apply substring_all|].
  rewrite append_cons. simpl. exact IH.
Qed.

Lemma substring_split (s : string) (n : nat) :
  n <= String.length s ->
  s = substring 0 n s +:+ substring n (String.length s - n) s.
Proof.
  revert n. induction s as [|c s IH]; intros n Hn.
  - simpl in Hn. assert (n = 0) as -> by lia. reflexivity.
  - destruct n as [|n].
    + simpl. by rewrite substring_all.
    + simpl in Hn. simpl substring. simpl String.length.
      rewrite append_cons. f_equal. apply IH. lia.
Qed.

Lemma endswith_iff (s suffix : string) :
  PyStr.endswith s suffix = true <-> exists p, s = p +:+ suffix.
Proof.
  unfold PyStr.endswith. rewrite andb_true_iff, Nat.leb_le, String.eqb_eq.
  split.
  - intros [Hlen Hsub].
    exists (substring 0 (String.length s - String.length suffix) s).
    pose proof (substring_split s (String.length s - String.length suffix))
      as Hsplit.
    replace (String.length s - (String.length s - String.length suffix))
      with (String.length suffix) in Hsplit by lia.
    rewrite Hsub in Hsplit. apply Hsplit. lia.
  - intros [p ->]. rewrite append_length. split; [lia|].
    replace (String.length p + String.length suffix - String.length suffix)
      with (String.length p) by lia.
    apply substring_after.
Qed.

Lemma rstrip_empty_iff s : PyStr.rstrip s = EmptyString <-> blank s = true.
Proof.
  induction s as [|c r IH]; simpl; [tauto|].
  destruct (PyStr.rstrip r) eqn:Hr.
  - destruct (PyStr.isspace c); simpl; [tauto|]. split; discriminate.
  - split; [discriminate|]. rewrite andb_true_iff. intros [_ Hb].
    apply IH in Hb. discriminate.
Qed.

Lemma lstrip_blank s : blank (PyStr.lstrip s) = blank s.
Proof.
  induction s as [|c r IH]; simpl; [reflexivity|].
  destruct (PyStr.isspace c) eqn:Hc; simpl; [exact IH|].
  rewrite Hc. reflexivity.
Qed.

Lemma strip_empty_iff s : PyStr.strip s = EmptyString <-> blank s = true.
Proof. unfold PyStr.strip. rewrite rstrip_empty_iff, lstrip_blank. tauto. Qed.

Lemma lstrip_decompose s :
  exists l, s = l +:+ PyStr.lstrip s /\ blank l = true.
Proof.
  induction s as [|c r (l & Hl & Hb)]; [by exists EmptyString|].
  simpl. destruct (PyStr.isspace c) eqn:Hc.
  - exists (String c l). rewrite append_cons, <- Hl. simpl.
    by rewrite Hc, Hb.
  - by exists EmptyString.
Qed.

Lemma rstrip_decompose s :
  exists r, s = PyStr.rstrip s +:+ r /\ blank r = true.
Proof.
  induction s as [|c t (r & Hr & Hb)]; [by exists EmptyString|].
  simpl. destruct (PyStr.rstrip t) as [|c' t'] eqn:Ht.
  - destruct (PyStr.isspace c) eqn:Hc.
    + exists (String c t). split; [reflexivity|]. simpl. rewrite Hc. simpl.
      apply rstrip_empty_iff. exact Ht.
    + exists r. split; [|exact Hb]. rewrite append_cons. f_equal. exact Hr.
  - exists r. split; [|exact Hb]. rewrite append_cons. f_equal. exact Hr.
Qed.

Lemma lstrip_head s c t :
  PyStr.lstrip s = String c t -> PyStr.isspace c = false.
Proof.
  induction s as [|a r IH]; simpl; [discriminate|].
  destruct (PyStr.isspace a) eqn:Ha; [exact IH|]. by intros [= <- _].
Qed.

Lemma rstrip_head c s c' t :
  PyStr.rstrip (String c s) = String c' t -> c' = c.
Proof.
  simpl. destruct (PyStr.rstrip s); [|by intros [= -> _]].
  destruct (PyStr.isspace c); [discriminate|]. by intros [= -> _].
Qed.

Lemma rstrip_last s t c :
  PyStr.rstrip s = t +:+ String c EmptyString -> PyStr.isspace c = false.
Proof.
  revert t. induction s as [|a r IH]; intros t; simpl.
  - destruct t; discriminate.
  - destruct (PyStr.rstrip r) as [|b r'] eqn:Hr.
    + destruct (PyStr.isspace a) eqn:Ha; [destruct t; discriminate|].
      destruct t as [|x t]; [by intros [= <-]|].
      rewrite append_cons. intros [= _ Ht]. destruct t; discriminate.
    + destruct t as [|x t].
      * intros Heq. inversion Heq.
      * rewrite append_cons. intros [= _ Ht]. by apply (IH t).
Qed.

(** [strip] removes whitespace from both ends and nothing else. *)
Lemma strip_trims s :
  (exists l r, s = l +:+ PyStr.strip s +:+ r
               /\ blank l = true /\ blank r = true)
  /\ (forall c t, PyStr.strip s = String c t -> PyStr.isspace c = false)
  /\ (forall t c, PyStr.strip s = t +:+ String c EmptyString ->
                  PyStr.isspace c = false).
Proof.
  unfold PyStr.strip. split; [|split].
  - destruct (lstrip_decompose s) as (l & Hl & Hbl).
    destruct (rstrip_decompose (PyStr.lstrip s)) as (r & Hr & Hbr).
    exists l, r. split; [|done]. by rewrite <- Hr.
  - intros c t Hs. destruct (PyStr.lstrip s) as [|a u] eqn:Hl; [discriminate|].
    apply rstrip_head in Hs as ->. by apply (lstrip_head s a u).
  - intros t c. apply rstrip_last.
Qed.

Lemma split_nonempty sep s : PyStr.split sep s <> [].
Proof.
  induction s as [|c r IH]; simpl; [discriminate|].
  destruct (Ascii.eqb c sep); [discriminate|].
  destruct (PyStr.split sep r); discriminate.
Qed.

Lemma join_cons_char sep c w ws :
  PyStr.join sep (String c w :: ws) = String c (PyStr.join sep (w :: ws)).
Proof. destruct ws; reflexivity. Qed.

(** Joining the pieces of [split] with the separator gives the string
    back. *)
Lemma join_split sep s :
  PyStr.join (String sep EmptyString) (PyStr.split sep s) = s.
Proof.
  induction s as [|c r IH]; [reflexivity|]. simpl PyStr.split.
  pose proof (split_nonempty sep r) as Hpieces.
  destruct (Ascii.eqb_spec c sep) as [->|Hne];
    destruct (PyStr.split sep r) as [|w ws]; try done.
  - change (PyStr.join (String sep EmptyString) (EmptyString :: w :: ws))
      with (String sep (PyStr.join (String sep EmptyString) (w :: ws))).
    by rewrite IH.
  - rewrite join_cons_char. by rewrite IH.
Qed.

(** ** The loop in closed form *)

Section Pass.
Variable fields : list string.
Variable sample_list : gset string.
Variable remove_mode : bool.

Local Abbreviation step := (selection_step fields sample_list remove_mode).
Local Abbreviation keep := (fun i => keeps fields sample_list remove_mode i = true).

Lemma selection_step_skip st i :
  keeps fields sample_list remove_mode i = false ->
  columns_to_keep (step st i) = columns_to_keep st
  /\ samples_kept (step st i) = samples_kept st
  /\ all_samples (step st i)
     = all_samples st ∪ list_to_set (omap (fun i => fields !! i) [i]).
Proof.
  unfold selection_step, keeps. intros Hk. simpl.
  case_bool_decide as Hlt.
  - destruct (fields !! i) as [sample_id|] eqn:Hi; simpl.
    + rewrite Hk. simpl. split; [|split]; [done..|set_solver].
    + split; [|split]; [done..|set_solver].
  - rewrite lookup_ge_None_2 by lia. simpl.
    split; [|split]; [done..|set_solver].
Qed.

Lemma selection_step_keep st i :
  keeps fields sample_list remove_mode i = true ->
  exists sample_id, fields !! i = Some sample_id
  /\ step st i = Selection (columns_to_keep st ++ triple i)
                           (all_samples st ∪ {[sample_id]})
                           (samples_kept st ∪ {[sample_id]}).
Proof.
  unfold selection_step, keeps. intros Hk.
  destruct (fields !! i) as [sample_id|] eqn:Hi; [|discriminate].
  exists sample_id. split; [reflexivity|].
  rewrite bool_decide_eq_true_2 by (eapply lookup_lt_Some; eassumption).
  rewrite Hk. reflexivity.
Qed.

Lemma fold_selection_step (positions : list nat) (st : selection) :
  fold_left step positions st
  = Selection
      (columns_to_keep st ++ flat_map triple (filter keep positions))
      (all_samples st ∪ list_to_set (omap (fun i => fields !! i) positions))
      (samples_kept st
       ∪ list_to_set (omap (fun i => fields !! i) (filter keep positions))).
Proof.
  revert st. induction positions as [|i positions IH]; intros st.
  - simpl. destruct st as [c a k]. simpl. rewrite app_nil_r.
    f_equal; set_solver.
  - simpl fold_left. rewrite IH.
    destruct (keeps fields sample_list remove_mode i) eqn:Hk.
    + destruct (selection_step_keep st i Hk) as (sample_id & Hi & ->).
      rewrite filter_cons_True by exact Hk. simpl.
      rewrite Hi. simpl. rewrite <- app_assoc. f_equal; set_solver.
    + destruct (selection_step_skip st i Hk) as (-> & -> & ->).
      rewrite filter_cons_False by (rewrite Hk; discriminate).
      simpl. destruct (fields !! i); simpl; f_equal; set_solver.
Qed.

Lemma selection_pass_closed :
  selection_pass fields sample_list remove_mode
  = Selection
      ([1; 2; 3] ++ flat_map triple (kept_positions fields sample_list remove_mode))
      (list_to_set (sample_ids fields))
      (list_to_set (omap (fun i => fields !! i)
                         (kept_positions fields sample_list remove_mode))).
Proof.
  unfold selection_pass. rewrite fold_selection_step. simpl.
  unfold kept_positions, sample_ids, sample_positions.
  f_equal; set_solver.
Qed.
End Pass.

(** ** Facts about [range] and the visited positions *)

Lemma range_bounds start stop step i :
  0 < step -> i ∈ PyStr.range start stop step -> start <= i < stop.
Proof.
  intros Hstep. unfold PyStr.range.
  rewrite list_elem_of_fmap. intros (k & -> & Hk).
  apply elem_of_seq in Hk.
  pose proof (Nat.Div0.mul_div_le (stop - start + (step - 1)) step) as Hdiv.
  nia.
Qed.

Lemma map_seq_sorted (R : nat -> nat -> Prop) (f : nat -> nat) a c :
  (forall j k, j < k -> R (f j) (f k)) ->
  StronglySorted R (map f (seq a c)).
Proof.
  intros Hmono. revert a. induction c as [|c IH]; intros a; simpl.
  - constructor.
  - constructor; [apply IH|].
    apply Forall_forall. intros y Hy.
    apply list_elem_of_fmap in Hy as (k & -> & Hk).
    apply elem_of_seq in Hk. apply Hmono. lia.
Qed.

Lemma sample_positions_apart fields :
  StronglySorted apart (sample_positions fields).
Proof.
  unfold sample_positions, PyStr.range. apply map_seq_sorted.
  intros j k Hjk. unfold apart. lia.
Qed.

Lemma sample_positions_bounds fields i :
  i ∈ sample_positions fields -> 3 <= i < length fields.
Proof. apply range_bounds. lia. Qed.

(** The visited positions are the multiples of three from 3 up to the last
    index of the header. *)
Lemma sample_positions_elem fields i :
  i ∈ sample_positions fields <-> 3 <= i < length fields /\ i mod 3 = 0.
Proof.
  split.
  - intros Hi. split; [by apply sample_positions_bounds|].
    unfold sample_positions, PyStr.range in Hi.
    apply list_elem_of_fmap in Hi as (k & -> & _).
    rewrite Nat.add_comm. change 3 with (1 * 3) at 2.
    rewrite <- Nat.mul_add_distr_r. apply Nat.Div0.mod_mul.
  - intros [[Hlo Hhi] Hmod]. unfold sample_positions, PyStr.range.
    apply list_elem_of_fmap. exists (i / 3 - 1).
    pose proof (Nat.div_mod_eq i 3) as Hi. rewrite Hmod in Hi.
    split; [lia|]. apply elem_of_seq.
    pose proof (Nat.div_mod_eq (length fields - 3 + (3 - 1)) 3) as Hd.
    pose proof (Nat.mod_upper_bound (length fields - 3 + (3 - 1)) 3).
    lia.
Qed.

Lemma sample_positions_length fields :
  length (sample_positions fields) = (length fields - 3 + 2) / 3.
Proof.
  unfold sample_positions, PyStr.range.
  rewrite length_map, length_seq. reflexivity.
Qed.

Lemma omap_length_total {A B} (f : A -> option B) (l : list A) :
  Forall (fun x => is_Some (f x)) l -> length (omap f l) = length l.
Proof.
  induction 1 as [|x l [y Hy] _ IH]; simpl; [reflexivity|].
  rewrite Hy. simpl. f_equal. exact IH.
Qed.

Lemma omap_filter_elem {A B} (f : A -> option B) (P : A -> Prop)
    `{forall x, Decision (P x)} (l : list A) y :
  y ∈ omap f (filter P l) -> y ∈ omap f l.
Proof.
  rewrite !list_elem_of_omap. intros (x & Hx & Hfx).
  apply list_elem_of_filter in Hx as [_ Hx]. eauto.
Qed.

Lemma omap_filter_NoDup {A B} (f : A -> option B) (P : A -> Prop)
    `{forall x, Decision (P x)} (l : list A) :
  NoDup (omap f l) -> NoDup (omap f (filter P l)).
Proof.
  induction l as [|x l IH]; simpl; [intros; constructor|].
  intros Hnd. destruct (decide (P x)) as [HP|HP].
  - rewrite filter_cons_True by exact HP. simpl.
    destruct (f x) as [y|]; simpl in *; [|auto].
    apply NoDup_cons in Hnd as [Hy Hnd]. apply NoDup_cons. split; [|auto].
    intros Hin. apply Hy. eapply omap_filter_elem. exact Hin.
  - rewrite filter_cons_False by exact HP.
    destruct (f x); simpl in *; [|auto].
    apply NoDup_cons in Hnd as [_ Hnd]. auto.
Qed.

Lemma sample_ids_length fields :
  length (sample_ids fields) = length (sample_positions fields).
Proof.
  unfold sample_ids. apply omap_length_total, Forall_forall.
  intros i Hi. apply sample_positions_bounds in Hi.
  apply lookup_lt_is_Some. lia.
Qed.

Lemma kept_positions_ids_length fields sample_list remove_mode :
  length (omap (fun i => fields !! i)
               (kept_positions fields sample_list remove_mode))
  = length (kept_positions fields sample_list remove_mode).
Proof.
  apply omap_length_total, Forall_forall. intros i Hi.
  apply list_elem_of_filter in Hi as [_ Hi].
  apply sample_positions_bounds in Hi. apply lookup_lt_is_Some. lia.
Qed.

Lemma flat_map_triple_length (positions : list nat) :
  length (flat_map triple positions) = 3 * length positions.
Proof. induction positions as [|i l IH]; simpl; lia. Qed.

Lemma whole_triples_count fields :
  whole_triples fields ->
  Z.of_nat (length (sample_positions fields))
  = ((Z.of_nat (length fields) - 3) / 3)%Z.
Proof.
  intros [Hmod Hlen]. rewrite sample_positions_length.
  rewrite Nat2Z.inj_div, Nat2Z.inj_add, Nat2Z.inj_sub by lia.
  change (Z.of_nat 3) with 3%Z. change (Z.of_nat 2) with 2%Z.
  set (d := (Z.of_nat (length fields) - 3)%Z) in *.
  assert (Hd : (d = 3 * (d / 3))%Z).
  { pose proof (Z.div_mod d 3). lia. }
  rewrite Hd at 1.
  replace (3 * (d / 3) + 2)%Z with (2 + (d / 3) * 3)%Z by lia.
  rewrite Z.div_add by lia. reflexivity.
Qed.

(** ** What [find_columns_to_keep] returns *)

Lemma find_columns_to_keep_inr header_line sample_list remove_mode
    cols kept removed :
  find_columns_to_keep header_line sample_list remove_mode
  = inr (cols, kept, removed) ->
  let fields := PyStr.split TAB header_line in
  let positions := kept_positions fields sample_list remove_mode in
  cols = [1; 2; 3] ++ flat_map triple positions
  /\ kept = list_to_set (omap (fun i => fields !! i) positions)
  /\ removed = header_samples header_line ∖ kept
  /\ kept <> ∅.
Proof.
  unfold find_columns_to_keep, header_samples.
  rewrite selection_pass_closed. simpl.
  case_bool_decide as Hempty; [discriminate|].
  intros [= <- <- <-]. auto.
Qed.

Lemma kept_subseteq_header header_line sample_list remove_mode :
  list_to_set (omap (fun i => PyStr.split TAB header_line !! i)
     (kept_positions (PyStr.split TAB header_line) sample_list remove_mode))
  ⊆ header_samples header_line.
Proof.
  intros sample_id. unfold header_samples, sample_ids.
  rewrite !elem_of_list_to_set. apply omap_filter_elem.
Qed.

Lemma filter_sorted {A} (R : A -> A -> Prop) (P : A -> Prop)
    `{forall x, Decision (P x)} (l : list A) :
  StronglySorted R l -> StronglySorted R (filter P l).
Proof.
  induction 1 as [|x l _ IH Hx]; [constructor|].
  destruct (decide (P x)) as [HP|HP].
  - rewrite filter_cons_True by exact HP. constructor; [exact IH|].
    apply Forall_forall. intros y Hy.
    apply list_elem_of_filter in Hy as [_ Hy].
    rewrite Forall_forall in Hx. auto.
  - rewrite filter_cons_False by exact HP. exact IH.
Qed.

Lemma triples_sorted (positions : list nat) (b : nat) :
  StronglySorted apart positions ->
  Forall (fun i => b <= i) positions ->
  StronglySorted lt (flat_map triple positions)
  /\ Forall (fun c => b < c) (flat_map triple positions).
Proof.
  intros Hs. revert b. induction Hs as [|i l _ IH Hi]; intros b Hb.
  - simpl. split; constructor.
  - apply Forall_cons in Hb as [Hbi Hb].
    destruct (IH (i + 3)) as [IHs IHb].
    { eapply Forall_impl; [exact Hi|]. unfold apart. auto. }
    simpl. split.
    + repeat (constructor; [|repeat constructor; try lia;
                              eapply Forall_impl; [exact IHb|];
                              simpl; intros; lia]).
      exact IHs.
    + repeat (constructor; [lia|]).
      eapply Forall_impl; [exact IHb|]. simpl. intros. lia.
Qed.

Lemma lt_sorted_NoDup (l : list nat) : StronglySorted lt l -> NoDup l.
Proof.
  induction 1 as [|x l _ IH Hx]; constructor; [|exact IH].
  intros Hin. rewrite Forall_forall in Hx. specialize (Hx x Hin). lia.
Qed.

Lemma kept_positions_apart fields sample_list remove_mode :
  StronglySorted apart (kept_positions fields sample_list remove_mode)
  /\ Forall (fun i => 3 <= i) (kept_positions fields sample_list remove_mode).
Proof.
  split.
  - apply filter_sorted, sample_positions_apart.
  - apply Forall_forall. intros i Hi.
    apply list_elem_of_filter in Hi as [_ Hi].
    apply sample_positions_bounds in Hi. lia.
Qed.

Lemma plan_sorted (positions : list nat) :
  StronglySorted apart positions -> Forall (fun i => 3 <= i) positions ->
  StronglySorted lt ([1; 2; 3] ++ flat_map triple positions).
Proof.
  intros Hs Hb. destruct (triples_sorted positions 3 Hs Hb) as [Hs' Hb'].
  simpl.
  repeat (constructor; [|repeat constructor; try lia;
                          eapply Forall_impl; [exact Hb'|];
                          simpl; intros; lia]).
  exact Hs'.
Qed.

(** ** Column plan *)

(** C1. For a header with pairwise distinct sample IDs and whole groups of
    three sample fields, a non-empty requested set and either mode, the
    column list that [find_columns_to_keep] returns starts with 1, 2, 3 and
    has length [3 + 3 * |samples_kept|].  On the scenario header, keeping
    [{S2}] gives [1,2,3,7,8,9] and removing [{S2}] gives
    [1,2,3,4,5,6,10,11,12]. *)
Theorem column_plan_shape :
  (forall header_line sample_list remove_mode cols kept removed,
     NoDup (sample_ids (PyStr.split TAB header_line)) ->
     whole_triples (PyStr.split TAB header_line) ->
     sample_list <> ∅ ->
     find_columns_to_keep header_line sample_list remove_mode
     = inr (cols, kept, removed) ->
     take 3 cols = [1; 2; 3] /\ length cols = 3 + 3 * size kept)
  /\ find_columns_to_keep scenario_header {[ "S2" ]} false
     = inr ([1; 2; 3; 7; 8; 9], {[ "S2" ]}, {[ "S1"; "S3" ]})
  /\ find_columns_to_keep scenario_header {[ "S2" ]} true
     = inr ([1; 2; 3; 4; 5; 6; 10; 11; 12], {[ "S1"; "S3" ]}, {[ "S2" ]}).
Proof.
  split; [|split; vm_compute; reflexivity].
  intros header_line sample_list remove_mode cols kept removed Hnd _ _ Hret.
  apply find_columns_to_keep_inr in Hret as (-> & -> & _ & _).
  split; [reflexivity|].
  rewrite length_app, flat_map_triple_length. simpl.
  rewrite size_list_to_set by (apply omap_filter_NoDup; exact Hnd).
  rewrite kept_positions_ids_length. reflexivity.
Qed.

Lemma column_plan_shape_witness :
  NoDup (sample_ids (PyStr.split TAB scenario_header))
  /\ whole_triples (PyStr.split TAB scenario_header)
  /\ ({[ "S2" ]} : gset string) <> ∅
  /\ take 3 [1; 2; 3; 7; 8; 9] = [1; 2; 3]
  /\ length [1; 2; 3; 7; 8; 9] = 3 + 3 * size ({[ "S2" ]} : gset string).
Proof.
  assert (Hnd : NoDup (sample_ids (PyStr.split TAB scenario_header))).
  { apply (bool_decide_unpack _). vm_compute. exact I. }
  assert (Hw : whole_triples (PyStr.split TAB scenario_header)).
  { split; vm_compute; [reflexivity|lia]. }
  assert (Hne : ({[ "S2" ]} : gset string) <> ∅).
  { apply (bool_decide_unpack _). vm_compute. exact I. }
  split; [exact Hnd|]. split; [exact Hw|]. split; [exact Hne|].
  apply (proj1 column_plan_shape scenario_header {[ "S2" ]} false
           [1; 2; 3; 7; 8; 9] {[ "S2" ]} {[ "S1"; "S3" ]} Hnd Hw Hne).
  vm_compute. reflexivity.
Defined.

(** C10. Whenever [find_columns_to_keep] returns, its column list is
    strictly increasing; so its entries are distinct, and after 1, 2, 3 it
    is made of the triples [i+1, i+2, i+3] of some of the visited positions,
    taken in header order. *)
Theorem columns_strictly_increasing header_line sample_list remove_mode
    cols kept removed :
  find_columns_to_keep header_line sample_list remove_mode
  = inr (cols, kept, removed) ->
  StronglySorted lt cols
  /\ NoDup cols
  /\ exists positions,
       positions `sublist_of` sample_positions (PyStr.split TAB header_line)
       /\ cols = [1; 2; 3] ++ flat_map triple positions.
Proof.
  intros Hret. apply find_columns_to_keep_inr in Hret as (-> & _ & _ & _).
  set (fields := PyStr.split TAB header_line).
  destruct (kept_positions_apart fields sample_list remove_mode) as [Hs Hb].
  pose proof (plan_sorted _ Hs Hb) as Hsorted.
  split; [exact Hsorted|]. split; [apply lt_sorted_NoDup, Hsorted|].
  exists (kept_positions fields sample_list remove_mode).
  split; [apply sublist_filter|reflexivity].
Qed.

Lemma columns_strictly_increasing_witness :
  StronglySorted lt [1; 2; 3; 4; 5; 6; 10; 11; 12]
  /\ NoDup [1; 2; 3; 4; 5; 6; 10; 11; 12]
  /\ exists positions,
       positions `sublist_of` sample_positions (PyStr.split TAB scenario_header)
       /\ [1; 2; 3; 4; 5; 6; 10; 11; 12] = [1; 2; 3] ++ flat_map triple positions.
Proof.
  apply (columns_strictly_increasing scenario_header {[ "S2" ]} true
           [1; 2; 3; 4; 5; 6; 10; 11; 12] {[ "S1"; "S3" ]} {[ "S2" ]}).
  vm_compute. reflexivity.
Defined.

(** ** Partition of the header's samples *)

(** C4. For a header with pairwise distinct sample IDs, a non-empty
    requested set and either mode, the returned [samples_kept] and
    [samples_removed] are disjoint, their union is the set of the header's
    sample IDs, and their sizes add up to the number N of those IDs, which
    for a header of whole triples is the [total_samples] the script
    prints. *)
Theorem kept_removed_partition header_line sample_list remove_mode
    cols kept removed :
  NoDup (sample_ids (PyStr.split TAB header_line)) ->
  sample_list <> ∅ ->
  find_columns_to_keep header_line sample_list remove_mode
  = inr (cols, kept, removed) ->
  kept ## removed
  /\ kept ∪ removed = header_samples header_line
  /\ size kept + size removed
     = length (sample_ids (PyStr.split TAB header_line))
  /\ (whole_triples (PyStr.split TAB header_line) ->
      Z.of_nat (size kept + size removed) = total_samples header_line).
Proof.
  intros Hnd _ Hret.
  apply find_columns_to_keep_inr in Hret as (_ & Hkept & -> & _).
  pose proof (kept_subseteq_header header_line sample_list remove_mode) as Hsub.
  rewrite <- Hkept in Hsub. clear Hkept.
  assert (Hsize : size kept + size (header_samples header_line ∖ kept)
                  = length (sample_ids (PyStr.split TAB header_line))).
  { rewrite <- size_union by set_solver.
    replace (kept ∪ header_samples header_line ∖ kept)
      with (header_samples header_line)
      by (apply union_difference_L; exact Hsub).
    unfold header_samples. apply size_list_to_set. exact Hnd. }
  split; [set_solver|].
  split; [symmetry; apply union_difference_L; exact Hsub|].
  split; [exact Hsize|].
  intros Hw. rewrite Hsize, sample_ids_length.
  unfold total_samples. apply whole_triples_count. exact Hw.
Qed.

Lemma kept_removed_partition_witness :
  NoDup (sample_ids (PyStr.split TAB scenario_header))
  /\ ({[ "S2" ]} : gset string) <> ∅
  /\ ({[ "S2" ]} : gset string) ## {[ "S1"; "S3" ]}
  /\ ({[ "S2" ]} : gset string) ∪ {[ "S1"; "S3" ]}
     = header_samples scenario_header
  /\ size ({[ "S2" ]} : gset string) + size ({[ "S1"; "S3" ]} : gset string)
     = length (sample_ids (PyStr.split TAB scenario_header))
  /\ (whole_triples (PyStr.split TAB scenario_header) ->
      Z.of_nat (size ({[ "S2" ]} : gset string)
                + size ({[ "S1"; "S3" ]} : gset string))
      = total_samples scenario_header).
Proof.
  assert (Hnd : NoDup (sample_ids (PyStr.split TAB scenario_header))).
  { apply (bool_decide_unpack _). vm_compute. exact I. }
  assert (Hne : ({[ "S2" ]} : gset string) <> ∅).
  { apply (bool_decide_unpack _). vm_compute. exact I. }
  split; [exact Hnd|]. split; [exact Hne|].
  apply (kept_removed_partition scenario_header {[ "S2" ]} false
           [1; 2; 3; 7; 8; 9] {[ "S2" ]} {[ "S1"; "S3" ]} Hnd Hne).
  vm_compute. reflexivity.
Defined.

(** ** Keep and remove are complementary *)

Lemma filter_ext_elem {A} (P Q : A -> Prop) `{forall x, Decision (P x)}
    `{forall x, Decision (Q x)} (l : list A) :
  (forall x, x ∈ l -> (P x <-> Q x)) -> filter P l = filter Q l.
Proof.
  induction l as [|x l IH]; intros Hext; [reflexivity|].
  assert (IH' : filter P l = filter Q l).
  { apply IH. intros y Hy. apply Hext. right. exact Hy. }
  destruct (decide (P x)) as [HP|HP].
  - rewrite !filter_cons_True; [congruence | |exact HP].
    apply Hext; [left|exact HP].
  - rewrite !filter_cons_False; [exact IH' | |exact HP].
    intros HQ. apply HP. apply Hext; [left|exact HQ].
Qed.

Lemma sample_position_id fields i :
  i ∈ sample_positions fields ->
  exists sample_id, fields !! i = Some sample_id
                    /\ sample_id ∈ sample_ids fields.
Proof.
  intros Hi. pose proof (sample_positions_bounds fields i Hi) as Hb.
  destruct (lookup_lt_is_Some_2 fields i) as [sample_id Hid]; [lia|].
  exists sample_id. split; [exact Hid|].
  unfold sample_ids. apply list_elem_of_omap. eauto.
Qed.

Lemma kept_positions_complement header_line sample_list :
  kept_positions (PyStr.split TAB header_line)
                 (header_samples header_line ∖ sample_list) true
  = kept_positions (PyStr.split TAB header_line) sample_list false.
Proof.
  unfold kept_positions. apply filter_ext_elem. intros i Hi.
  destruct (sample_position_id _ i Hi) as (sample_id & Hid & Hin).
  unfold keeps, should_keep. rewrite Hid.
  assert (Hh : sample_id ∈ header_samples header_line).
  { unfold header_samples. apply elem_of_list_to_set. exact Hin. }
  rewrite negb_true_iff, bool_decide_eq_false, bool_decide_eq_true.
  rewrite elem_of_difference. split.
  - intros Hn. destruct (decide (sample_id ∈ sample_list)); [done|].
    exfalso. apply Hn. split; assumption.
  - intros Hs [_ Hn]. contradiction.
Qed.

(** C5. For every header and every requested set S, keep mode with S and
    remove mode with the complement of S in the header's sample set give
    the same [samples_kept], the same column list, and the same result
    altogether. *)
Theorem keep_is_remove_of_complement header_line sample_list :
  find_columns_to_keep header_line
    (header_samples header_line ∖ sample_list) true
  = find_columns_to_keep header_line sample_list false.
Proof.
  unfold find_columns_to_keep. rewrite !selection_pass_closed. simpl.
  rewrite kept_positions_complement. reflexivity.
Qed.

(** ** Sample list *)

Lemma fold_add_line lines acc x :
  x ∈ fold_left add_line lines acc
  <-> x ∈ acc \/ exists line, line ∈ lines /\ x = PyStr.strip line
                              /\ x <> EmptyString.
Proof.
  revert acc. induction lines as [|l lines IH]; intros acc; simpl.
  - split; [auto|]. intros [?|(line & Hin & _)]; [done|].
    by apply elem_of_nil in Hin.
  - rewrite IH. unfold add_line. case_bool_decide as Hl.
    + split.
      * intros [?|(line & Hin & ? & ?)]; [auto|]. right. exists line.
        split; [by right|done].
      * intros [?|(line & Hin & Hx & Hne)]; [auto|]. right.
        apply elem_of_cons in Hin as [->|Hin]; [congruence|eauto].
    + rewrite elem_of_union, elem_of_singleton. split.
      * intros [[Hx | ->] | (line & Hin & ? & ?)]; [auto| |].
        -- right. exists l. split; [by left|done].
        -- right. exists line. split; [by right|done].
      * intros [?|(line & Hin & Hx & Hne)]; [auto|].
        apply elem_of_cons in Hin as [->|Hin]; [auto|]. right. eauto.
Qed.

Lemma collect_samples_elem lines x :
  x ∈ collect_samples lines
  <-> exists line, line ∈ lines /\ x = PyStr.strip line /\ x <> EmptyString.
Proof.
  unfold collect_samples. rewrite fold_add_line. split; [|auto].
  intros [Hin|?]; [|done]. by apply not_elem_of_empty in Hin.
Qed.

Lemma collect_samples_empty_iff lines :
  collect_samples lines = ∅ <-> Forall (fun line => blank line = true) lines.
Proof.
  rewrite Forall_forall. split.
  - intros Hempty line Hin. apply strip_empty_iff.
    destruct (decide (PyStr.strip line = EmptyString)) as [|Hne]; [done|].
    exfalso. apply (not_elem_of_empty (C := gset string) (PyStr.strip line)).
    rewrite <- Hempty. apply collect_samples_elem. eauto.
  - intros Hall. apply set_eq. intros x. split; [|set_solver].
    rewrite collect_samples_elem. intros (line & Hin & -> & Hne).
    exfalso. apply Hne, strip_empty_iff, Hall, Hin.
Qed.

Lemma collect_samples_same_lines lines lines' :
  (forall line, line ∈ lines <-> line ∈ lines') ->
  collect_samples lines = collect_samples lines'.
Proof.
  intros Hsame. apply set_eq. intros x. rewrite !collect_samples_elem.
  split; intros (line & Hin & ?); exists line; (split; [|done]);
    by apply Hsame.
Qed.

(** ** Runs *)

Lemma read_sample_list_inr w sample_list_file samples :
  outcome (read_sample_list w sample_list_file) = inr samples ->
  read_sample_list w sample_list_file
  = ([ReadList sample_list_file], inr samples).
Proof.
  unfold read_sample_list.
  destruct (open_lines w sample_list_file) as [lines| |]; simpl;
    try discriminate.
  case_bool_decide; simpl; [discriminate|]. by intros [= ->].
Qed.

Lemma read_header_inr w input_file header_line :
  outcome (read_header w input_file) = inr header_line ->
  read_header w input_file = ([ReadHeader input_file], inr header_line).
Proof.
  unfold read_header.
  destruct (if PyStr.endswith input_file ".gz"
            then gzip_readline w input_file else open_readline w input_file);
    simpl; try discriminate. by intros [= ->].
Qed.

Lemma report_selection_ok remove_mode sample_list cols kept removed :
  outcome (report_selection remove_mode sample_list cols kept removed)
  = inr tt.
Proof.
  unfold report_selection.
  destruct remove_mode; simpl; case_bool_decide; reflexivity.
Qed.

Lemma report_selection_warning remove_mode sample_list cols kept removed :
  let absent := not_found remove_mode sample_list kept removed in
  (Printed (MsgWarnNotFound absent)
     ∈ trace (report_selection remove_mode sample_list cols kept removed)
   <-> absent <> ∅)
  /\ (absent = ∅ ->
      forall other, Printed (MsgWarnNotFound other)
        ∉ trace (report_selection remove_mode sample_list cols kept removed)).
Proof.
  intros absent. unfold report_selection.
  destruct remove_mode; simpl; case_bool_decide as Habs; simpl.
  - split; [split|]; [intros Hin; not_in_trace Hin|done|].
    intros _ other Hin. not_in_trace Hin.
  - split; [split|]; [done| |done].
    intros _. do 3 right. left.
  - split; [split|]; [intros Hin; not_in_trace Hin|done|].
    intros _ other Hin. not_in_trace Hin.
  - split; [split|]; [done| |done].
    intros _. do 3 right. left.
Qed.

Lemma subset_beagle_proceeds w input_file sample_list_file output_file
    remove_mode sample_list header_line cols kept removed :
  path_exists w input_file = true ->
  outcome (read_sample_list w sample_list_file) = inr sample_list ->
  outcome (read_header w input_file) = inr header_line ->
  find_columns_to_keep header_line sample_list remove_mode
  = inr (cols, kept, removed) ->
  subset_beagle w input_file sample_list_file output_file remove_mode
  = (prelude_trace input_file sample_list_file sample_list header_line
     ++ trace (report_selection remove_mode sample_list cols kept removed)
     ++ trace (transform w cols input_file (effective_output output_file)),
     outcome (transform w cols input_file (effective_output output_file))).
Proof.
  intros Hexists Hlist Hheader Hfind. unfold subset_beagle.
  rewrite Hexists. unfold print, emit. cbn [bind negb].
  rewrite (read_sample_list_inr _ _ _ Hlist). cbn [bind].
  rewrite (read_header_inr _ _ _ Hheader). cbn [bind].
  unfold select. rewrite Hfind. unfold ret. cbn [bind].
  pose proof (report_selection_ok remove_mode sample_list cols kept removed)
    as Hrep.
  destruct (report_selection remove_mode sample_list cols kept removed)
    as [t [f|[]]]; [discriminate|].
  destruct (transform w cols input_file (effective_output output_file))
    as [t' r].
  reflexivity.
Qed.

Lemma subset_beagle_selection_exit w input_file sample_list_file output_file
    remove_mode sample_list header_line f :
  path_exists w input_file = true ->
  outcome (read_sample_list w sample_list_file) = inr sample_list ->
  outcome (read_header w input_file) = inr header_line ->
  find_columns_to_keep header_line sample_list remove_mode = inl f ->
  subset_beagle w input_file sample_list_file output_file remove_mode
  = (prelude_trace input_file sample_list_file sample_list header_line
     ++ [Printed (MsgError f)], inl f).
Proof.
  intros Hexists Hlist Hheader Hfind. unfold subset_beagle.
  rewrite Hexists. unfold print, emit. cbn [bind negb].
  rewrite (read_sample_list_inr _ _ _ Hlist). cbn [bind].
  rewrite (read_header_inr _ _ _ Hheader). cbn [bind].
  unfold select. rewrite Hfind. reflexivity.
Qed.

(** ** Empty selection *)

Lemma kept_empty_iff header_line sample_list remove_mode :
  samples_kept (selection_pass (PyStr.split TAB header_line)
                               sample_list remove_mode) = ∅
  <-> forall sample_id, sample_id ∈ header_samples header_line ->
        should_keep sample_list remove_mode sample_id = false.
Proof.
  rewrite selection_pass_closed. simpl. split.
  - intros Hempty sample_id Hin.
    unfold header_samples, sample_ids in Hin.
    apply elem_of_list_to_set, list_elem_of_omap in Hin as (i & Hi & Hid).
    destruct (should_keep sample_list remove_mode sample_id) eqn:Hk; [|done].
    exfalso. apply (not_elem_of_empty (C := gset string) sample_id).
    rewrite <- Hempty. apply elem_of_list_to_set, list_elem_of_omap.
    exists i. split; [|exact Hid].
    apply list_elem_of_filter. split; [|exact Hi].
    unfold keeps. rewrite Hid. exact Hk.
  - intros Hall. apply set_eq. intros sample_id.
    rewrite elem_of_list_to_set, list_elem_of_omap. split; [|set_solver].
    intros (i & Hi & Hid). apply list_elem_of_filter in Hi as [Hk Hi].
    unfold keeps in Hk. rewrite Hid in Hk.
    rewrite Hall in Hk; [discriminate|].
    unfold header_samples, sample_ids.
    apply elem_of_list_to_set, list_elem_of_omap. eauto.
Qed.

(** C6. [find_columns_to_keep] fails exactly when the kept set it computed
    is empty, the failure is [EmptySelection], and its exit status is not
    zero.  Keep mode with a requested set disjoint from the header's samples
    fails, and so does remove mode with a requested set that contains all of
    them.  The failure ends the run of [subset_beagle] before any command is
    started. *)
Theorem empty_selection_iff header_line sample_list remove_mode :
  (find_columns_to_keep header_line sample_list remove_mode
   = inl EmptySelection
   <-> samples_kept (selection_pass (PyStr.split TAB header_line)
                                    sample_list remove_mode) = ∅)
  /\ (forall f, find_columns_to_keep header_line sample_list remove_mode
                = inl f -> f = EmptySelection /\ exit_status f <> 0%Z)
  /\ (sample_list ## header_samples header_line ->
      find_columns_to_keep header_line sample_list false
      = inl EmptySelection)
  /\ (header_samples header_line ⊆ sample_list ->
      find_columns_to_keep header_line sample_list true
      = inl EmptySelection)
  /\ (forall w input_file sample_list_file output_file,
        path_exists w input_file = true ->
        outcome (read_sample_list w sample_list_file) = inr sample_list ->
        outcome (read_header w input_file) = inr header_line ->
        find_columns_to_keep header_line sample_list remove_mode
        = inl EmptySelection ->
        let run := subset_beagle w input_file sample_list_file output_file
                                 remove_mode in
        outcome run = inl EmptySelection
        /\ forall cmd, Spawn cmd ∉ trace run).
Proof.
  assert (Hfail : forall S m,
            samples_kept (selection_pass (PyStr.split TAB header_line) S m) = ∅
            -> find_columns_to_keep header_line S m = inl EmptySelection).
  { intros S m Hempty. unfold find_columns_to_keep. simpl.
    rewrite bool_decide_eq_true_2 by exact Hempty. reflexivity. }
  split; [|split; [|split; [|split]]].
  - split; [|apply Hfail].
    unfold find_columns_to_keep. simpl.
    case_bool_decide as Hempty; [auto|discriminate].
  - unfold find_columns_to_keep. simpl.
    case_bool_decide; [|discriminate].
    intros f [= <-]. split; [reflexivity|discriminate].
  - intros Hdisj. apply Hfail, kept_empty_iff. intros sample_id Hin.
    unfold should_keep. apply bool_decide_eq_false. set_solver.
  - intros Hsub. apply Hfail, kept_empty_iff. intros sample_id Hin.
    unfold should_keep. apply negb_false_iff, bool_decide_eq_true.
    set_solver.
  - intros w input_file sample_list_file output_file
           Hexists Hlist Hheader Hfind run. unfold run.
    rewrite (subset_beagle_selection_exit _ _ _ _ _ _ _ _
               Hexists Hlist Hheader Hfind).
    split; [reflexivity|]. intros cmd Hin. cbn in Hin. not_in_trace Hin.
Qed.

Lemma empty_selection_iff_witness :
  let w := cohort_world 512 in
  let run := subset_beagle w "cohort.beagle.gz" "absent.txt" "subset" false in
  ({[ "S4" ]} : gset string) ## header_samples scenario_header
  /\ header_samples scenario_header
     ⊆ ({[ "S1"; "S2"; "S3"; "S4" ]} : gset string)
  /\ path_exists w "cohort.beagle.gz" = true
  /\ outcome (read_sample_list w "absent.txt") = inr {[ "S4" ]}
  /\ outcome (read_header w "cohort.beagle.gz") = inr scenario_header
  /\ find_columns_to_keep scenario_header {[ "S4" ]} false
     = inl EmptySelection
  /\ find_columns_to_keep scenario_header {[ "S1"; "S2"; "S3"; "S4" ]} true
     = inl EmptySelection
  /\ outcome run = inl EmptySelection
  /\ (forall cmd, Spawn cmd ∉ trace run).
Proof.
  intros w run.
  assert (Hd : ({[ "S4" ]} : gset string) ## header_samples scenario_header).
  { apply (bool_decide_unpack _). vm_compute. exact I. }
  assert (Hs : header_samples scenario_header
               ⊆ ({[ "S1"; "S2"; "S3"; "S4" ]} : gset string)).
  { apply (bool_decide_unpack _). vm_compute. exact I. }
  assert (H1 : path_exists w "cohort.beagle.gz" = true) by reflexivity.
  assert (H2 : outcome (read_sample_list w "absent.txt") = inr {[ "S4" ]})
    by (vm_compute; reflexivity).
  assert (H3 : outcome (read_header w "cohort.beagle.gz") = inr scenario_header)
    by (vm_compute; reflexivity).
  destruct (empty_selection_iff scenario_header {[ "S4" ]} false)
    as (_ & _ & Hkeep & _ & Hrun).
  destruct (empty_selection_iff scenario_header
              {[ "S1"; "S2"; "S3"; "S4" ]} true) as (_ & _ & _ & Hremove & _).
  split; [exact Hd|]. split; [exact Hs|]. split; [exact H1|].
  split; [exact H2|]. split; [exact H3|]. split; [exact (Hkeep Hd)|].
  split; [exact (Hremove Hs)|].
  exact (Hrun w "cohort.beagle.gz" "absent.txt" "subset" H1 H2 H3 (Hkeep Hd)).
Defined.

(** ** Requested samples that the header lacks *)

Lemma kept_elem header_line sample_list remove_mode x :
  x ∈ (list_to_set (omap (fun i => PyStr.split TAB header_line !! i)
         (kept_positions (PyStr.split TAB header_line)
                         sample_list remove_mode)) : gset string)
  <-> x ∈ header_samples header_line
      /\ should_keep sample_list remove_mode x = true.
Proof.
  unfold header_samples, sample_ids, kept_positions.
  rewrite !elem_of_list_to_set, !list_elem_of_omap. split.
  - intros (i & Hi & Hid). apply list_elem_of_filter in Hi as [Hk Hi].
    unfold keeps in Hk. rewrite Hid in Hk. eauto.
  - intros [(i & Hi & Hid) Hk]. exists i. split; [|exact Hid].
    apply list_elem_of_filter. split; [|exact Hi].
    unfold keeps. rewrite Hid. exact Hk.
Qed.

Lemma not_found_absent header_line sample_list remove_mode cols kept removed :
  find_columns_to_keep header_line sample_list remove_mode
  = inr (cols, kept, removed) ->
  not_found remove_mode sample_list kept removed
  = sample_list ∖ (kept ∪ removed)
  /\ not_found remove_mode sample_list kept removed
     ## header_samples header_line.
Proof.
  intros Hret.
  apply find_columns_to_keep_inr in Hret as (_ & Hkept & -> & _).
  assert (Hk : forall x, x ∈ kept <-> x ∈ header_samples header_line
                         /\ should_keep sample_list remove_mode x = true).
  { intros x. rewrite Hkept. apply kept_elem. }
  clear Hkept. unfold not_found.
  destruct remove_mode; unfold should_keep in Hk.
  - split; [set_solver|].
    intros x Hx Hh. apply elem_of_difference in Hx as [Hx Hnk].
    apply elem_of_difference in Hx as [Hs Hnr]. apply Hnr.
    apply elem_of_difference. split; [exact Hh|exact Hnk].
  - assert (Hd : sample_list ∖ kept ## header_samples header_line).
    { intros x Hx Hh. apply elem_of_difference in Hx as [Hs Hnk].
      apply Hnk, Hk. split; [exact Hh|]. by apply bool_decide_eq_true. }
    split; [|exact Hd]. apply set_eq. intros x. split.
    + intros Hx. pose proof (Hd x Hx) as Hnh.
      apply elem_of_difference in Hx as [Hs Hnk].
      apply elem_of_difference. split; [exact Hs|].
      intros [?|Hr]%elem_of_union; [done|].
      apply elem_of_difference in Hr as [Hh _]. by apply Hnh.
    + set_solver.
Qed.

(** C7. In both modes the set named by the warning is the requested IDs
    minus kept and removed, it shares nothing with the header's samples, the
    warning is printed exactly when it is not empty, and with or without it
    the run goes on into the transform stage, whose outcome is the outcome
    of the run. *)
Theorem absent_samples_only_warn w input_file sample_list_file output_file
    remove_mode sample_list header_line cols kept removed :
  path_exists w input_file = true ->
  outcome (read_sample_list w sample_list_file) = inr sample_list ->
  outcome (read_header w input_file) = inr header_line ->
  find_columns_to_keep header_line sample_list remove_mode
  = inr (cols, kept, removed) ->
  let absent := not_found remove_mode sample_list kept removed in
  let run :=
    subset_beagle w input_file sample_list_file output_file remove_mode in
  let report := report_selection remove_mode sample_list cols kept removed in
  let stage := transform w cols input_file (effective_output output_file) in
  absent = sample_list ∖ (kept ∪ removed)
  /\ absent ## header_samples header_line
  /\ (Printed (MsgWarnNotFound absent) ∈ trace report <-> absent <> ∅)
  /\ outcome report = inr tt
  /\ (exists before, trace run = before ++ trace report ++ trace stage)
  /\ outcome run = outcome stage.
Proof.
  intros Hexists Hlist Hheader Hfind absent run report stage.
  destruct (not_found_absent _ _ _ _ _ _ Hfind) as [Heq Hdisj].
  split; [exact Heq|]. split; [exact Hdisj|].
  split; [apply report_selection_warning|].
  split; [apply report_selection_ok|].
  unfold run.
  rewrite (subset_beagle_proceeds _ _ _ _ _ _ _ _ _ _
             Hexists Hlist Hheader Hfind).
  split; [eexists; reflexivity|reflexivity].
Qed.

Lemma absent_samples_only_warn_witness :
  let w := cohort_world 512 in
  let run := subset_beagle w "cohort.beagle.gz" "keep.txt" "subset" false in
  let report :=
    report_selection false {[ "S2"; "S9" ]} [1; 2; 3; 7; 8; 9]
                     {[ "S2" ]} {[ "S1"; "S3" ]} in
  let stage := transform w [1; 2; 3; 7; 8; 9] "cohort.beagle.gz"
                         (effective_output "subset") in
  let absent := not_found false {[ "S2"; "S9" ]} {[ "S2" ]} {[ "S1"; "S3" ]} in
  path_exists w "cohort.beagle.gz" = true
  /\ outcome (read_sample_list w "keep.txt") = inr {[ "S2"; "S9" ]}
  /\ outcome (read_header w "cohort.beagle.gz") = inr scenario_header
  /\ find_columns_to_keep scenario_header {[ "S2"; "S9" ]} false
     = inr ([1; 2; 3; 7; 8; 9], {[ "S2" ]}, {[ "S1"; "S3" ]})
  /\ absent = {[ "S2"; "S9" ]} ∖ ({[ "S2" ]} ∪ {[ "S1"; "S3" ]})
  /\ absent ## header_samples scenario_header
  /\ (Printed (MsgWarnNotFound absent) ∈ trace report <-> absent <> ∅)
  /\ outcome report = inr tt
  /\ (exists before, trace run = before ++ trace report ++ trace stage)
  /\ outcome run = outcome stage.
Proof.
  intros w run report stage absent.
  assert (H1 : path_exists w "cohort.beagle.gz" = true) by reflexivity.
  assert (H2 : outcome (read_sample_list w "keep.txt") = inr {[ "S2"; "S9" ]})
    by (vm_compute; reflexivity).
  assert (H3 : outcome (read_header w "cohort.beagle.gz") = inr scenario_header)
    by (vm_compute; reflexivity).
  assert (H4 : find_columns_to_keep scenario_header {[ "S2"; "S9" ]} false
               = inr ([1; 2; 3; 7; 8; 9], {[ "S2" ]}, {[ "S1"; "S3" ]}))
    by (vm_compute; reflexivity).
  split; [exact H1|]. split; [exact H2|]. split; [exact H3|].
  split; [exact H4|].
  exact (absent_samples_only_warn w "cohort.beagle.gz" "keep.txt" "subset"
           false {[ "S2"; "S9" ]} scenario_header [1; 2; 3; 7; 8; 9]
           {[ "S2" ]} {[ "S1"; "S3" ]} H1 H2 H3 H4).
Defined.

(** ** Loading the sample list *)

Lemma read_sample_list_lines w sample_list_file lines :
  open_lines w sample_list_file = IoOk lines ->
  read_sample_list w sample_list_file
  = if bool_decide (collect_samples lines = ∅)
    then ([ReadList sample_list_file; Printed (MsgError EmptySampleList)],
          inl EmptySampleList)
    else ([ReadList sample_list_file], inr (collect_samples lines)).
Proof.
  intros Hopen. unfold read_sample_list. rewrite Hopen.
  case_bool_decide; reflexivity.
Qed.

(** C8. When the list file can be read, [read_sample_list] returns the set
    of its stripped lines that are not empty; lists with the same lines,
    however often repeated, give the same run of the loader; it fails with
    [EmptySampleList] exactly when every line is blank, and then
    [subset_beagle] ends without reading the header. *)
Theorem sample_list_loading w sample_list_file lines :
  open_lines w sample_list_file = IoOk lines ->
  let samples := collect_samples lines in
  (forall x, x ∈ samples
     <-> exists line, line ∈ lines /\ x = PyStr.strip line
                      /\ x <> EmptyString)
  /\ (samples <> ∅ ->
      read_sample_list w sample_list_file
      = ([ReadList sample_list_file], inr samples))
  /\ (forall w' lines',
        open_lines w' sample_list_file = IoOk lines' ->
        (forall line, line ∈ lines <-> line ∈ lines') ->
        read_sample_list w' sample_list_file
        = read_sample_list w sample_list_file)
  /\ (Forall (fun line => blank line = true) lines
      <-> outcome (read_sample_list w sample_list_file)
          = inl EmptySampleList)
  /\ (Forall (fun line => blank line = true) lines ->
      forall input_file output_file remove_mode,
        let run := subset_beagle w input_file sample_list_file
                                 output_file remove_mode in
        (forall p, ReadHeader p ∉ trace run)
        /\ outcome run <> inr tt
        /\ (path_exists w input_file = true ->
            outcome run = inl EmptySampleList)).
Proof.
  intros Hopen samples.
  pose proof (read_sample_list_lines _ _ _ Hopen) as Hread.
  split; [apply collect_samples_elem|].
  split; [|split; [|split]].
  - intros Hne. rewrite Hread. by rewrite bool_decide_eq_false_2.
  - intros w' lines' Hopen' Hsame.
    rewrite Hread, (read_sample_list_lines _ _ _ Hopen').
    by rewrite (collect_samples_same_lines lines lines' Hsame).
  - rewrite <- collect_samples_empty_iff, Hread.
    case_bool_decide; simpl; split; try done.
  - intros Hblank input_file output_file remove_mode run.
    apply collect_samples_empty_iff in Hblank.
    unfold run, subset_beagle.
    destruct (path_exists w input_file); unfold print, emit; cbn [bind negb].
    + rewrite Hread, bool_decide_eq_true_2 by exact Hblank. cbn.
      split; [|split; [discriminate|reflexivity]].
      intros p Hin. not_in_trace Hin.
    + cbn. split; [|split; [discriminate|discriminate]].
      intros p Hin. not_in_trace Hin.
Qed.

Lemma sample_list_loading_witness :
  let w := cohort_world 512 in
  let run := subset_beagle w "cohort.beagle.gz" "blank.txt" "subset" false in
  open_lines w "blank.txt" = IoOk [NL; "  " +:+ NL]
  /\ Forall (fun line => blank line = true) [NL; "  " +:+ NL]
  /\ outcome (read_sample_list w "blank.txt") = inl EmptySampleList
  /\ (forall p, ReadHeader p ∉ trace run)
  /\ outcome run <> inr tt
  /\ outcome run = inl EmptySampleList.
Proof.
  intros w run.
  assert (Hopen : open_lines w "blank.txt" = IoOk [NL; "  " +:+ NL])
    by reflexivity.
  assert (Hblank : Forall (fun line => blank line = true) [NL; "  " +:+ NL])
    by (repeat constructor).
  destruct (sample_list_loading w "blank.txt" _ Hopen)
    as (_ & _ & _ & Hfail & Hrun).
  destruct (Hrun Hblank "cohort.beagle.gz" "subset" false)
    as (Hhdr & Hne & Hout).
  split; [exact Hopen|]. split; [exact Hblank|].
  split; [apply Hfail, Hblank|]. split; [exact Hhdr|].
  split; [exact Hne|]. apply Hout. reflexivity.
Defined.

(** ** Suffixes of file names *)

Lemma endswith_beagle_gz (s : string) :
  PyStr.endswith s ".beagle.gz" = true -> PyStr.endswith s ".gz" = true.
Proof.
  rewrite !endswith_iff. intros [p ->]. exists (p +:+ ".beagle").
  by rewrite append_assoc.
Qed.

Lemma output_is_gz_suffix (output_file : string) :
  output_is_gz output_file = PyStr.endswith output_file ".gz".
Proof.
  unfold output_is_gz.
  destruct (PyStr.endswith output_file ".gz") eqn:Hgz; [reflexivity|].
  destruct (PyStr.endswith output_file ".beagle.gz") eqn:Hbgz; [|reflexivity].
  apply endswith_beagle_gz in Hbgz. congruence.
Qed.

Lemma pipeline_redirect columns input_file output_file has_pv file_size :
  pipeline columns input_file output_file has_pv file_size
  = pipeline_front columns input_file has_pv file_size
    +:+ (if PyStr.endswith output_file ".gz" then " | gzip" else EmptyString)
    +:+ " > " +:+ output_file.
Proof.
  unfold pipeline, pipeline_front. rewrite output_is_gz_suffix.
  destruct (input_is_gz input_file), (PyStr.endswith output_file ".gz");
    simpl andb; cbv iota; rewrite ?append_assoc; simpl; reflexivity.
Qed.

(** ** The transform stage *)

Lemma print_progress_ok has_pv stdout :
  outcome (print_progress has_pv stdout) = inr tt.
Proof.
  unfold print_progress. destruct has_pv; [|reflexivity].
  induction stdout as [|line stdout IH]; [reflexivity|].
  simpl. destruct (fold_right _ _ stdout) as [t r]. simpl in *. exact IH.
Qed.

Lemma transform_spawns w columns input_file output_file file_size :
  getsize w input_file = Some file_size ->
  let cmd := command w columns input_file output_file file_size in
  transform w columns input_file output_file
  = ([Printed (MsgProcessing input_file output_file); GetSize input_file;
      PvCheck;
      Printed (if pv_available w then MsgProgress else MsgInstallPv)]
     ++ trace (execute w cmd (pv_available w) output_file),
     outcome (execute w cmd (pv_available w) output_file)).
Proof.
  intros Hsize cmd. subst cmd. unfold command, transform, generate_awk_command.
  rewrite Hsize. unfold print, emit, ret. cbn [bind].
  destruct (execute w _ (pv_available w) output_file) as [t r].
  reflexivity.
Qed.

Lemma execute_exit_zero w cmd has_pv output_file stdout :
  popen w cmd = ProcExited stdout 0 ->
  execute w cmd has_pv output_file
  = (Spawn cmd :: trace (print_progress has_pv stdout)
       ++ trace (check_output w output_file),
     outcome (check_output w output_file)).
Proof.
  intros Hexit. unfold execute. rewrite Hexit.
  pose proof (print_progress_ok has_pv stdout) as Hok.
  destruct (print_progress has_pv stdout) as [t [f|[]]]; [discriminate|].
  unfold emit. cbn [bind].
  rewrite bool_decide_eq_false_2 by (intros Hne; by apply Hne).
  destruct (check_output w output_file) as [t' r]. reflexivity.
Qed.

Lemma execute_exit_zero_outcome w cmd has_pv output_file stdout :
  popen w cmd = ProcExited stdout 0 ->
  outcome (execute w cmd has_pv output_file)
  = outcome (check_output w output_file).
Proof. intros Hexit. by rewrite (execute_exit_zero _ _ _ _ _ Hexit). Qed.

Lemma execute_exit_zero_trace w cmd has_pv output_file stdout :
  popen w cmd = ProcExited stdout 0 ->
  trace (execute w cmd has_pv output_file)
  = Spawn cmd :: trace (print_progress has_pv stdout)
      ++ trace (check_output w output_file).
Proof. intros Hexit. by rewrite (execute_exit_zero _ _ _ _ _ Hexit). Qed.

Lemma check_output_outcome w output_file :
  outcome (check_output w output_file)
  = if path_exists_after w output_file then
      match getsize_after w output_file with
      | Some _ => inr tt
      | None => inl UnexpectedError
      end
    else inl OutputNotCreated.
Proof.
  unfold check_output.
  destruct (path_exists_after w output_file); [|reflexivity].
  destruct (getsize_after w output_file); reflexivity.
Qed.

Lemma check_output_success w output_file output_size :
  path_exists_after w output_file = true ->
  getsize_after w output_file = Some output_size ->
  check_output w output_file
  = ([Exists output_file; Printed (MsgSuccess output_file output_size)],
     inr tt).
Proof. intros He Hs. unfold check_output. rewrite He, Hs. reflexivity. Qed.

Lemma execute_trace_head w cmd has_pv output_file :
  exists rest, trace (execute w cmd has_pv output_file) = Spawn cmd :: rest.
Proof.
  unfold execute, emit. cbn [bind].
  match goal with |- context [let '(_, _) := ?m in _] => destruct m as [t r] end.
  eexists. reflexivity.
Qed.

Lemma subset_beagle_spawns w input_file sample_list_file output_file
    remove_mode sample_list header_line cols kept removed file_size :
  path_exists w input_file = true ->
  outcome (read_sample_list w sample_list_file) = inr sample_list ->
  outcome (read_header w input_file) = inr header_line ->
  find_columns_to_keep header_line sample_list remove_mode
  = inr (cols, kept, removed) ->
  getsize w input_file = Some file_size ->
  let output := effective_output output_file in
  let cmd := command w cols input_file output file_size in
  let run :=
    subset_beagle w input_file sample_list_file output_file remove_mode in
  Spawn cmd ∈ trace run
  /\ outcome run = outcome (execute w cmd (pv_available w) output)
  /\ forall e, e ∈ trace (execute w cmd (pv_available w) output) ->
               e ∈ trace run.
Proof.
  intros Hexists Hlist Hheader Hfind Hsize output cmd run. unfold run.
  rewrite (subset_beagle_proceeds _ _ _ _ _ _ _ _ _ _
             Hexists Hlist Hheader Hfind).
  rewrite (transform_spawns _ _ _ _ _ Hsize). fold output. fold cmd.
  cbn [trace outcome fst snd].
  assert (Hsub : forall e, e ∈ trace (execute w cmd (pv_available w) output) ->
            e ∈ prelude_trace input_file sample_list_file sample_list
                  header_line
                ++ fst (report_selection remove_mode sample_list cols
                          kept removed)
                ++ [Printed (MsgProcessing input_file output);
                    GetSize input_file; PvCheck;
                    Printed (if pv_available w then MsgProgress
                             else MsgInstallPv)]
                ++ trace (execute w cmd (pv_available w) output)).
  { intros e He. rewrite !elem_of_app. auto. }
  split; [|split; [reflexivity|exact Hsub]].
  apply Hsub.
  destruct (execute_trace_head w cmd (pv_available w) output) as [rest ->].
  left.
Qed.

(** ** Output check *)

(** C3, as the code has it.  After the transformer exits with status 0 the
    run reports success exactly when the output file exists and its size can
    be read; a missing output file is a failure, and an output file of zero
    bytes is reported as a success of size 0. *)
Theorem success_iff_output_exists w input_file sample_list_file output_file
    remove_mode sample_list header_line cols kept removed file_size stdout :
  path_exists w input_file = true ->
  outcome (read_sample_list w sample_list_file) = inr sample_list ->
  outcome (read_header w input_file) = inr header_line ->
  find_columns_to_keep header_line sample_list remove_mode
  = inr (cols, kept, removed) ->
  getsize w input_file = Some file_size ->
  popen w (command w cols input_file (effective_output output_file) file_size)
  = ProcExited stdout 0 ->
  let output := effective_output output_file in
  let run :=
    subset_beagle w input_file sample_list_file output_file remove_mode in
  Spawn (command w cols input_file output file_size) ∈ trace run
  /\ (outcome run = inr tt
      <-> path_exists_after w output = true
          /\ is_Some (getsize_after w output))
  /\ (path_exists_after w output = false ->
      outcome run = inl OutputNotCreated)
  /\ (path_exists_after w output = true ->
      getsize_after w output = Some 0 ->
      outcome run = inr tt /\ Printed (MsgSuccess output 0) ∈ trace run).
Proof.
  intros Hexists Hlist Hheader Hfind Hsize Hexit output run.
  destruct (subset_beagle_spawns _ _ _ output_file _ _ _ _ _ _ _
              Hexists Hlist Hheader Hfind Hsize) as (Hspawn & Hout & Hsub).
  fold output in Hspawn, Hout, Hsub, Hexit. fold run in Hspawn, Hout, Hsub.
  rewrite (execute_exit_zero_outcome _ _ _ _ _ Hexit) in Hout.
  rewrite (execute_exit_zero_trace _ _ _ _ _ Hexit) in Hsub.
  rewrite check_output_outcome in Hout.
  split; [exact Hspawn|]. rewrite Hout. split; [|split].
  - destruct (path_exists_after w output); [|split; [discriminate|]].
    + destruct (getsize_after w output) as [n|].
      * split; [eauto|reflexivity].
      * split; [discriminate|]. intros [_ [n Hn]]. discriminate.
    + intros [? _]. discriminate.
  - intros ->. reflexivity.
  - intros He Hs. rewrite He, Hs. split; [reflexivity|].
    apply Hsub. right. apply elem_of_app. right.
    rewrite (check_output_success _ _ _ He Hs). simpl. right. left.
Qed.

Lemma zero_byte_output_reported_success :
  let w := cohort_world 0 in
  let run := subset_beagle w "cohort.beagle.gz" "keep.txt" "subset" false in
  popen w (command w [1; 2; 3; 7; 8; 9] "cohort.beagle.gz" "subset.beagle" 4096)
  = ProcExited [] 0
  /\ Spawn (command w [1; 2; 3; 7; 8; 9] "cohort.beagle.gz" "subset.beagle" 4096)
     ∈ trace run
  /\ getsize_after w "subset.beagle" = Some 0
  /\ outcome run = inr tt
  /\ ~ (outcome run = inr tt ->
        path_exists_after w "subset.beagle" = true
        /\ exists n, getsize_after w "subset.beagle" = Some n /\ 0 < n).
Proof.
  intros w run.
  assert (Hout : outcome run = inr tt) by (vm_compute; reflexivity).
  split; [reflexivity|]. split; [|split; [reflexivity|split; [exact Hout|]]].
  - vm_compute. do 18 right. left.
  - intros Himp. destruct (Himp Hout) as [_ (n & Hn & Hpos)].
    vm_compute in Hn. injection Hn as <-. lia.
Qed.

Lemma success_iff_output_exists_witness :
  let w := cohort_world 0 in
  let run := subset_beagle w "cohort.beagle.gz" "keep.txt" "subset" false in
  let cmd :=
    command w [1; 2; 3; 7; 8; 9] "cohort.beagle.gz" "subset.beagle" 4096 in
  path_exists w "cohort.beagle.gz" = true
  /\ outcome (read_sample_list w "keep.txt") = inr {[ "S2"; "S9" ]}
  /\ outcome (read_header w "cohort.beagle.gz") = inr scenario_header
  /\ find_columns_to_keep scenario_header {[ "S2"; "S9" ]} false
     = inr ([1; 2; 3; 7; 8; 9], {[ "S2" ]}, {[ "S1"; "S3" ]})
  /\ getsize w "cohort.beagle.gz" = Some 4096
  /\ popen w cmd = ProcExited [] 0
  /\ Spawn cmd ∈ trace run
  /\ (outcome run = inr tt
      <-> path_exists_after w "subset.beagle" = true
          /\ is_Some (getsize_after w "subset.beagle"))
  /\ (path_exists_after w "subset.beagle" = false ->
      outcome run = inl OutputNotCreated)
  /\ (path_exists_after w "subset.beagle" = true ->
      getsize_after w "subset.beagle" = Some 0 ->
      outcome run = inr tt
      /\ Printed (MsgSuccess "subset.beagle" 0) ∈ trace run).
Proof.
  intros w run cmd.
  assert (H1 : path_exists w "cohort.beagle.gz" = true) by reflexivity.
  assert (H2 : outcome (read_sample_list w "keep.txt") = inr {[ "S2"; "S9" ]})
    by (vm_compute; reflexivity).
  assert (H3 : outcome (read_header w "cohort.beagle.gz") = inr scenario_header)
    by (vm_compute; reflexivity).
  assert (H4 : find_columns_to_keep scenario_header {[ "S2"; "S9" ]} false
               = inr ([1; 2; 3; 7; 8; 9], {[ "S2" ]}, {[ "S1"; "S3" ]}))
    by (vm_compute; reflexivity).
  assert (H5 : getsize w "cohort.beagle.gz" = Some 4096) by reflexivity.
  assert (H6 : popen w cmd = ProcExited [] 0) by reflexivity.
  split; [exact H1|]. split; [exact H2|]. split; [exact H3|].
  split; [exact H4|]. split; [exact H5|]. split; [exact H6|].
  exact (success_iff_output_exists w "cohort.beagle.gz" "keep.txt" "subset"
           false {[ "S2"; "S9" ]} scenario_header [1; 2; 3; 7; 8; 9]
           {[ "S2" ]} {[ "S1"; "S3" ]} 4096 [] H1 H2 H3 H4 H5 H6).
Defined.

(** ** Output naming *)

Lemma append_not_self (s t : string) : t <> EmptyString -> s +:+ t <> s.
Proof.
  intros Ht Heq. apply (f_equal String.length) in Heq.
  rewrite append_length in Heq. destruct t; [done|]. simpl in Heq. lia.
Qed.

(** C9. The output path gets [.beagle] appended exactly when the given name
    ends with neither [.beagle] nor [.beagle.gz]; the output is compressed
    exactly when the resulting name ends with [.gz], which decides whether
    the pipeline goes through [gzip]; and the command of a run is built for
    the resulting name. *)
Theorem output_naming :
  (forall output_file,
     effective_output output_file
     = if PyStr.endswith output_file ".beagle"
          || PyStr.endswith output_file ".beagle.gz"
       then output_file else output_file +:+ ".beagle")
  /\ (forall output_file,
        effective_output output_file <> output_file
        <-> PyStr.endswith output_file ".beagle" = false
            /\ PyStr.endswith output_file ".beagle.gz" = false)
  /\ (forall output_file,
        output_is_gz output_file = PyStr.endswith output_file ".gz")
  /\ (forall output_file,
        output_is_gz output_file = true
        <-> exists stem, output_file = stem +:+ ".gz")
  /\ (forall columns input_file output_file has_pv file_size,
        pipeline columns input_file output_file has_pv file_size
        = pipeline_front columns input_file has_pv file_size
          +:+ (if PyStr.endswith output_file ".gz" then " | gzip"
               else EmptyString)
          +:+ " > " +:+ output_file)
  /\ (forall w input_file sample_list_file output_file remove_mode
             sample_list header_line cols kept removed file_size,
        path_exists w input_file = true ->
        outcome (read_sample_list w sample_list_file) = inr sample_list ->
        outcome (read_header w input_file) = inr header_line ->
        find_columns_to_keep header_line sample_list remove_mode
        = inr (cols, kept, removed) ->
        getsize w input_file = Some file_size ->
        Spawn (command w cols input_file (effective_output output_file)
                       file_size)
          ∈ trace (subset_beagle w input_file sample_list_file output_file
                                 remove_mode)).
Proof.
  split; [|split; [|split; [|split; [|split]]]].
  - intros output_file. unfold effective_output.
    destruct (PyStr.endswith output_file ".beagle"),
             (PyStr.endswith output_file ".beagle.gz"); reflexivity.
  - intros output_file. unfold effective_output.
    destruct (PyStr.endswith output_file ".beagle"),
             (PyStr.endswith output_file ".beagle.gz"); simpl.
    1-3: split; [intros Hne; by destruct Hne|intros [? ?]; discriminate].
    split; [done|]. intros _. by apply append_not_self.
  - apply output_is_gz_suffix.
  - intros output_file. rewrite output_is_gz_suffix. apply endswith_iff.
  - apply pipeline_redirect.
  - intros w input_file sample_list_file output_file remove_mode
           sample_list header_line cols kept removed file_size
           Hexists Hlist Hheader Hfind Hsize.
    exact (proj1 (subset_beagle_spawns _ _ _ output_file _ _ _ _ _ _ _
                    Hexists Hlist Hheader Hfind Hsize)).
Qed.

Lemma output_naming_witness :
  let w := cohort_world 512 in
  path_exists w "cohort.beagle.gz" = true
  /\ outcome (read_sample_list w "keep.txt") = inr {[ "S2"; "S9" ]}
  /\ outcome (read_header w "cohort.beagle.gz") = inr scenario_header
  /\ find_columns_to_keep scenario_header {[ "S2"; "S9" ]} false
     = inr ([1; 2; 3; 7; 8; 9], {[ "S2" ]}, {[ "S1"; "S3" ]})
  /\ getsize w "cohort.beagle.gz" = Some 4096
  /\ Spawn (command w [1; 2; 3; 7; 8; 9] "cohort.beagle.gz"
                    (effective_output "subset.gz") 4096)
     ∈ trace (subset_beagle w "cohort.beagle.gz" "keep.txt" "subset.gz" false).
Proof.
  intros w.
  assert (H1 : path_exists w "cohort.beagle.gz" = true) by reflexivity.
  assert (H2 : outcome (read_sample_list w "keep.txt") = inr {[ "S2"; "S9" ]})
    by (vm_compute; reflexivity).
  assert (H3 : outcome (read_header w "cohort.beagle.gz") = inr scenario_header)
    by (vm_compute; reflexivity).
  assert (H4 : find_columns_to_keep scenario_header {[ "S2"; "S9" ]} false
               = inr ([1; 2; 3; 7; 8; 9], {[ "S2" ]}, {[ "S1"; "S3" ]}))
    by (vm_compute; reflexivity).
  assert (H5 : getsize w "cohort.beagle.gz" = Some 4096) by reflexivity.
  split; [exact H1|]. split; [exact H2|]. split; [exact H3|].
  split; [exact H4|]. split; [exact H5|].
  exact (proj2 (proj2 (proj2 (proj2 (proj2 output_naming))))
           w "cohort.beagle.gz" "keep.txt" "subset.gz" false
           {[ "S2"; "S9" ]} scenario_header [1; 2; 3; 7; 8; 9]
           {[ "S2" ]} {[ "S1"; "S3" ]} 4096 H1 H2 H3 H4 H5).
Defined.

(** Names that show the rule: a bare name, the two recognised suffixes, and
    a [.gz] name that is not a matrix name. *)
Example effective_output_examples :
  effective_output "subset" = "subset.beagle"
  /\ effective_output "subset.beagle" = "subset.beagle"
  /\ effective_output "subset.beagle.gz" = "subset.beagle.gz"
  /\ effective_output "subset.gz" = "subset.gz.beagle"
  /\ output_is_gz (effective_output "subset.gz") = false
  /\ output_is_gz (effective_output "subset.beagle.gz") = true.
Proof. vm_compute. repeat split. Qed.

(** ** Headers with a partial last group *)

(** Every header with a partial last group has that group visited: its
    first field is read as a sample ID, and its third column lies beyond
    the header. *)
Lemma partial_group_visited fields :
  3 < length fields -> ~ whole_triples fields ->
  exists i sample_id,
    i ∈ sample_positions fields /\ fields !! i = Some sample_id
    /\ sample_id ∈ sample_ids fields /\ length fields < i + 3.
Proof.
  intros Hlen Hpartial.
  set (i := 3 * (length fields / 3)).
  pose proof (Nat.div_mod_eq (length fields) 3) as Hd.
  pose proof (Nat.mod_upper_bound (length fields) 3) as Hm.
  assert (Hr : length fields mod 3 <> 0).
  { intros Hz. apply Hpartial. split; [|lia].
    replace (Z.of_nat (length fields) - 3)%Z
      with (Z.of_nat (3 * (length fields / 3 - 1))) by lia.
    change 3%Z with (Z.of_nat 3). rewrite <- Nat2Z.inj_mod.
    rewrite Nat.mul_comm, Nat.Div0.mod_mul. reflexivity. }
  assert (Hi : i ∈ sample_positions fields).
  { apply sample_positions_elem. unfold i. split; [lia|].
    rewrite Nat.mul_comm. apply Nat.Div0.mod_mul. }
  destruct (sample_position_id fields i Hi) as (sample_id & Hid & Hin).
  exists i, sample_id. repeat split; try assumption. unfold i. lia.
Qed.

(** C2, at a header of four fields.  The loop reads the lone fourth field
    as a sample: keeping it returns the columns 1 to 6 of a header that has
    four, and removing another ID does the same, while [total_samples]
    counts no sample at all. *)
Theorem partial_group_is_selected :
  length (PyStr.split TAB partial_header) = 4
  /\ ~ whole_triples (PyStr.split TAB partial_header)
  /\ total_samples partial_header = 0%Z
  /\ sample_positions (PyStr.split TAB partial_header) = [3]
  /\ find_columns_to_keep partial_header {[ "S1" ]} false
     = inr ([1; 2; 3; 4; 5; 6], {[ "S1" ]}, ∅)
  /\ find_columns_to_keep partial_header {[ "S7" ]} true
     = inr ([1; 2; 3; 4; 5; 6], {[ "S1" ]}, ∅)
  /\ ~ Forall (fun c => c <= length (PyStr.split TAB partial_header))
              [1; 2; 3; 4; 5; 6].
Proof.
  split; [reflexivity|]. split; [|split; [reflexivity|]].
  - intros [Hmod _]. vm_compute in Hmod. discriminate.
  - split; [reflexivity|].
    split; [vm_compute; reflexivity|].
    split; [vm_compute; reflexivity|].
    intros Hall. rewrite Forall_forall in Hall.
    specialize (Hall 6). vm_compute in Hall.
    assert (Hin : 6 ∈ [1; 2; 3; 4; 5; 6]) by (do 5 right; left).
    specialize (Hall Hin). lia.
Qed.

(** * Further properties *)

(** ** Selection *)

Lemma header_sample_position header_line sample_id :
  sample_id ∈ header_samples header_line
  <-> exists i, i ∈ sample_positions (PyStr.split TAB header_line)
                /\ PyStr.split TAB header_line !! i = Some sample_id.
Proof.
  unfold header_samples, sample_ids.
  by rewrite elem_of_list_to_set, list_elem_of_omap.
Qed.

Lemma difference_twice (H S : gset string) : H ∖ (H ∖ S) = H ∩ S.
Proof.
  apply set_eq. intros x.
  rewrite !elem_of_difference, elem_of_intersection.
  destruct (decide (x ∈ S)); naive_solver.
Qed.

Lemma difference_of_part (H S : gset string) : H ∖ (H ∩ S) = H ∖ S.
Proof. set_solver. Qed.

Lemma kept_by_mode header_line sample_list remove_mode cols kept removed :
  find_columns_to_keep header_line sample_list remove_mode
  = inr (cols, kept, removed) ->
  kept = (if remove_mode then header_samples header_line ∖ sample_list
          else header_samples header_line ∩ sample_list)
  /\ removed = header_samples header_line ∖ kept.
Proof.
  intros Hret.
  apply find_columns_to_keep_inr in Hret as (_ & Hkept & -> & _).
  split; [|reflexivity]. apply set_eq. intros x.
  rewrite Hkept, kept_elem. unfold should_keep. destruct remove_mode.
  - by rewrite elem_of_difference, negb_true_iff, bool_decide_eq_false.
  - by rewrite elem_of_intersection, bool_decide_eq_true.
Qed.

(** X1. What is kept is decided by membership alone: keep mode returns the
    header's samples that are in the list and reports the others as removed,
    remove mode returns the header's samples that are not in the list and
    reports those in the list as removed. *)
Theorem selection_by_mode header_line sample_list remove_mode
    cols kept removed :
  find_columns_to_keep header_line sample_list remove_mode
  = inr (cols, kept, removed) ->
  kept = (if remove_mode then header_samples header_line ∖ sample_list
          else header_samples header_line ∩ sample_list)
  /\ removed = (if remove_mode then header_samples header_line ∩ sample_list
                else header_samples header_line ∖ sample_list).
Proof.
  intros Hret. destruct (kept_by_mode _ _ _ _ _ _ Hret) as [Hkept ->].
  split; [exact Hkept|]. rewrite Hkept.
  destruct remove_mode.
  - apply difference_twice.
  - apply difference_of_part.
Qed.

Lemma selection_by_mode_witness :
  find_columns_to_keep scenario_header {[ "S2"; "S9" ]} true
  = inr ([1; 2; 3; 4; 5; 6; 10; 11; 12], {[ "S1"; "S3" ]}, {[ "S2" ]})
  /\ ({[ "S1"; "S3" ]} : gset string)
     = header_samples scenario_header ∖ {[ "S2"; "S9" ]}
  /\ ({[ "S2" ]} : gset string)
     = header_samples scenario_header ∩ {[ "S2"; "S9" ]}.
Proof.
  assert (Hret : find_columns_to_keep scenario_header {[ "S2"; "S9" ]} true
                 = inr ([1; 2; 3; 4; 5; 6; 10; 11; 12],
                        {[ "S1"; "S3" ]}, {[ "S2" ]}))
    by (vm_compute; reflexivity).
  split; [exact Hret|].
  exact (selection_by_mode _ _ _ _ _ _ Hret).
Defined.

Lemma kept_positions_restrict header_line sample_list remove_mode :
  kept_positions (PyStr.split TAB header_line)
                 (sample_list ∩ header_samples header_line) remove_mode
  = kept_positions (PyStr.split TAB header_line) sample_list remove_mode.
Proof.
  unfold kept_positions. apply filter_ext_elem. intros i Hi.
  destruct (sample_position_id _ i Hi) as (sample_id & Hid & Hin).
  assert (Hh : sample_id ∈ header_samples header_line).
  { unfold header_samples. apply elem_of_list_to_set. exact Hin. }
  unfold keeps, should_keep. rewrite Hid.
  assert (Hiff : sample_id ∈ sample_list ∩ header_samples header_line
                 <-> sample_id ∈ sample_list) by set_solver.
  destruct remove_mode;
    rewrite ?negb_true_iff, ?bool_decide_eq_false, ?bool_decide_eq_true;
    by rewrite Hiff.
Qed.

(** X2. Requested IDs that the header lacks have no influence on the
    selection: the result for a list is the result for the part of the list
    that occurs in the header. *)
Theorem absent_ids_do_not_matter header_line sample_list remove_mode :
  find_columns_to_keep header_line
    (sample_list ∩ header_samples header_line) remove_mode
  = find_columns_to_keep header_line sample_list remove_mode.
Proof.
  unfold find_columns_to_keep. rewrite !selection_pass_closed. simpl.
  rewrite kept_positions_restrict. reflexivity.
Qed.

Lemma keeps_opposite fields sample_list i :
  i ∈ sample_positions fields ->
  keeps fields sample_list true i = negb (keeps fields sample_list false i).
Proof.
  intros Hi. destruct (sample_position_id _ i Hi) as (sample_id & Hid & _).
  unfold keeps, should_keep. by rewrite Hid.
Qed.

Lemma filter_split_length {A} (P : A -> bool) (l : list A) :
  length (filter (fun x => P x = true) l)
  + length (filter (fun x => negb (P x) = true) l) = length l.
Proof.
  induction l as [|x l IH]; [reflexivity|].
  destruct (P x) eqn:HP.
  - rewrite filter_cons_True by exact HP.
    rewrite filter_cons_False by (rewrite HP; discriminate). simpl. lia.
  - rewrite filter_cons_False by (rewrite HP; discriminate).
    rewrite filter_cons_True by (rewrite HP; reflexivity). simpl. lia.
Qed.

Lemma elem_of_triples c (positions : list nat) :
  c ∈ flat_map triple positions
  <-> exists i, i ∈ positions /\ (c = i + 1 \/ c = i + 2 \/ c = i + 3).
Proof.
  induction positions as [|j positions IH]; simpl.
  - split; [intros Hc; by apply elem_of_nil in Hc|].
    intros (i & Hi & _). by apply elem_of_nil in Hi.
  - rewrite !elem_of_cons, IH. split.
    + intros [-> | [-> | [-> | (i & Hi & Hc)]]].
      1-3: exists j; split; [by left|auto].
      exists i. split; [by right|done].
    + intros (i & Hi & Hc). apply elem_of_cons in Hi as [->|Hi].
      * destruct Hc as [-> | [-> | ->]]; auto.
      * do 3 right. eauto.
Qed.

(** X3. The same list in the two modes splits the file: what keep mode
    keeps is what remove mode removes and the other way round, no sample
    column is in both column lists, and together the two lists hold the
    three marker columns twice and every sample column once. *)
Theorem keep_and_remove_split header_line sample_list
    cols_k kept_k removed_k cols_r kept_r removed_r :
  find_columns_to_keep header_line sample_list false
  = inr (cols_k, kept_k, removed_k) ->
  find_columns_to_keep header_line sample_list true
  = inr (cols_r, kept_r, removed_r) ->
  kept_k = removed_r /\ removed_k = kept_r
  /\ (forall c, c ∈ cols_k -> c ∈ cols_r -> c <= 3)
  /\ length cols_k + length cols_r
     = 6 + 3 * length (sample_positions (PyStr.split TAB header_line)).
Proof.
  intros Hk Hr.
  destruct (kept_by_mode _ _ _ _ _ _ Hk) as [-> ->].
  destruct (kept_by_mode _ _ _ _ _ _ Hr) as [-> ->].
  apply find_columns_to_keep_inr in Hk as (-> & _).
  apply find_columns_to_keep_inr in Hr as (-> & _).
  set (fields := PyStr.split TAB header_line).
  split; [symmetry; apply difference_twice|].
  split; [apply difference_of_part|].
  assert (Hfilter : kept_positions fields sample_list true
            = filter (fun i => negb (keeps fields sample_list false i) = true)
                     (sample_positions fields)).
  { unfold kept_positions. apply filter_ext_elem. intros i Hi.
    by rewrite (keeps_opposite _ _ _ Hi). }
  split.
  - intros c Hck Hcr.
    apply elem_of_app in Hck as [Hck|Hck].
    { repeat (apply elem_of_cons in Hck as [->|Hck]; [lia|]).
      by apply elem_of_nil in Hck. }
    apply elem_of_app in Hcr as [Hcr|Hcr].
    { repeat (apply elem_of_cons in Hcr as [->|Hcr]; [lia|]).
      by apply elem_of_nil in Hcr. }
    exfalso.
    apply elem_of_triples in Hck as (i & Hi & Hci).
    apply elem_of_triples in Hcr as (j & Hj & Hcj).
    rewrite Hfilter in Hj.
    apply list_elem_of_filter in Hi as [Hki Hi].
    apply list_elem_of_filter in Hj as [Hkj Hj].
    apply sample_positions_elem in Hi as [_ Hi3].
    apply sample_positions_elem in Hj as [_ Hj3].
    pose proof (Nat.div_mod_eq i 3). pose proof (Nat.div_mod_eq j 3).
    assert (i = j) as -> by lia.
    rewrite Hki in Hkj. discriminate.
  - rewrite !length_app, !flat_map_triple_length, Hfilter.
    unfold kept_positions.
    pose proof (filter_split_length (keeps fields sample_list false)
                  (sample_positions fields)) as Hlen.
    simpl. lia.
Qed.

Lemma keep_and_remove_split_witness :
  find_columns_to_keep scenario_header {[ "S2" ]} false
  = inr ([1; 2; 3; 7; 8; 9], {[ "S2" ]}, {[ "S1"; "S3" ]})
  /\ find_columns_to_keep scenario_header {[ "S2" ]} true
     = inr ([1; 2; 3; 4; 5; 6; 10; 11; 12], {[ "S1"; "S3" ]}, {[ "S2" ]})
  /\ ({[ "S2" ]} : gset string) = {[ "S2" ]}
  /\ ({[ "S1"; "S3" ]} : gset string) = {[ "S1"; "S3" ]}
  /\ (forall c, c ∈ [1; 2; 3; 7; 8; 9] ->
                c ∈ [1; 2; 3; 4; 5; 6; 10; 11; 12] -> c <= 3)
  /\ length [1; 2; 3; 7; 8; 9] + length [1; 2; 3; 4; 5; 6; 10; 11; 12]
     = 6 + 3 * length (sample_positions (PyStr.split TAB scenario_header)).
Proof.
  assert (Hk : find_columns_to_keep scenario_header {[ "S2" ]} false
               = inr ([1; 2; 3; 7; 8; 9], {[ "S2" ]}, {[ "S1"; "S3" ]}))
    by (vm_compute; reflexivity).
  assert (Hr : find_columns_to_keep scenario_header {[ "S2" ]} true
               = inr ([1; 2; 3; 4; 5; 6; 10; 11; 12],
                      {[ "S1"; "S3" ]}, {[ "S2" ]}))
    by (vm_compute; reflexivity).
  split; [exact Hk|]. split; [exact Hr|].
  exact (keep_and_remove_split _ _ _ _ _ _ _ _ Hk Hr).
Defined.

(** X4. The returned columns are numbers of existing fields when the header
    is made of whole triples: each lies between 1 and the number of header
    fields.  For any header at all they lie between 1 and that number
    plus 2. *)
Theorem columns_within_header header_line sample_list remove_mode
    cols kept removed :
  find_columns_to_keep header_line sample_list remove_mode
  = inr (cols, kept, removed) ->
  let fields := PyStr.split TAB header_line in
  Forall (fun c => 1 <= c <= length fields + 2) cols
  /\ (whole_triples fields -> Forall (fun c => 1 <= c <= length fields) cols).
Proof.
  intros Hret fields.
  apply find_columns_to_keep_inr in Hret as (-> & _ & _ & Hne).
  fold fields in Hne |- *.
  assert (Hpos : forall c,
            c ∈ flat_map triple (kept_positions fields sample_list remove_mode)
            -> exists i, 3 <= i < length fields /\ i mod 3 = 0
                         /\ i + 1 <= c <= i + 3).
  { intros c Hc. apply elem_of_triples in Hc as (i & Hi & Hc).
    apply list_elem_of_filter in Hi as [_ Hi].
    apply sample_positions_elem in Hi as [Hb Hm]. exists i. lia. }
  split.
  - apply Forall_forall. intros c Hc. apply elem_of_app in Hc as [Hc|Hc].
    + assert (Hlen : 1 <= length fields).
      { pose proof (split_nonempty TAB header_line) as Hsplit.
        unfold fields. destruct (PyStr.split TAB header_line); [done|].
        simpl. lia. }
      repeat (apply elem_of_cons in Hc as [->|Hc]; [lia|]).
      by apply elem_of_nil in Hc.
    + destruct (Hpos c Hc) as (i & ? & ? & ?). lia.
  - intros [Hmod Hlen]. apply Forall_forall. intros c Hc.
    apply elem_of_app in Hc as [Hc|Hc].
    + repeat (apply elem_of_cons in Hc as [->|Hc]; [lia|]).
      by apply elem_of_nil in Hc.
    + destruct (Hpos c Hc) as (i & Hb & Hm & Hci).
      pose proof (Nat.div_mod_eq i 3) as Hi.
      pose proof (Z.div_mod (Z.of_nat (length fields) - 3) 3) as Hf.
      rewrite Hmod in Hf. lia.
Qed.

Lemma columns_within_header_witness :
  find_columns_to_keep scenario_header {[ "S2" ]} true
  = inr ([1; 2; 3; 4; 5; 6; 10; 11; 12], {[ "S1"; "S3" ]}, {[ "S2" ]})
  /\ Forall (fun c => 1 <= c <= length (PyStr.split TAB scenario_header) + 2)
            [1; 2; 3; 4; 5; 6; 10; 11; 12]
  /\ (whole_triples (PyStr.split TAB scenario_header) ->
      Forall (fun c => 1 <= c <= length (PyStr.split TAB scenario_header))
             [1; 2; 3; 4; 5; 6; 10; 11; 12]).
Proof.
  assert (Hr : find_columns_to_keep scenario_header {[ "S2" ]} true
               = inr ([1; 2; 3; 4; 5; 6; 10; 11; 12],
                      {[ "S1"; "S3" ]}, {[ "S2" ]}))
    by (vm_compute; reflexivity).
  split; [exact Hr|].
  exact (columns_within_header _ _ _ _ _ _ Hr).
Defined.




Lemma sample_positions_nil_iff fields :
  sample_positions fields = [] <-> length fields <= 3.
Proof.
  split.
  - intros Hnil. destruct (decide (length fields <= 3)) as [|Hlong]; [done|].
    assert (Hin : 3 ∈ sample_positions fields).
    { apply sample_positions_elem. split; [lia|reflexivity]. }
    rewrite Hnil in Hin. by apply elem_of_nil in Hin.
  - intros Hshort. destruct (sample_positions fields) as [|i l] eqn:Hpos;
      [done|].
    assert (Hin : i ∈ sample_positions fields) by (rewrite Hpos; left).
    apply sample_positions_bounds in Hin. lia.
Qed.

(** X6. A header without a fourth field, such as the empty first line of an
    empty file, ends every selection with [EmptySelection], whatever the
    list and the mode.  A header with a fourth field has a selection that
    succeeds: removing nothing keeps all of its samples. *)
Theorem header_without_samples header_line :
  (length (PyStr.split TAB header_line) <= 3 ->
   forall sample_list remove_mode,
     find_columns_to_keep header_line sample_list remove_mode
     = inl EmptySelection)
  /\ (3 < length (PyStr.split TAB header_line) ->
      exists cols,
        find_columns_to_keep header_line ∅ true
        = inr (cols, header_samples header_line, ∅)).
Proof.
  split.
  - intros Hshort sample_list remove_mode.
    apply sample_positions_nil_iff in Hshort.
    unfold find_columns_to_keep. rewrite selection_pass_closed. simpl.
    unfold kept_positions. rewrite Hshort. reflexivity.
  - intros Hlong.
    destruct (find_columns_to_keep header_line ∅ true)
      as [f|[[cols kept] removed]] eqn:Hfind.
    + exfalso.
      assert (Hall : forall sample_id,
                sample_id ∈ header_samples header_line ->
                should_keep ∅ true sample_id = false).
      { apply kept_empty_iff. unfold find_columns_to_keep in Hfind.
        simpl in Hfind. revert Hfind.
        case_bool_decide; [done|discriminate]. }
      assert (Hin : 3 ∈ sample_positions (PyStr.split TAB header_line)).
      { apply sample_positions_elem. split; [lia|reflexivity]. }
      destruct (sample_position_id _ 3 Hin) as (sample_id & Hid & Hids).
      specialize (Hall sample_id).
      unfold should_keep in Hall. simpl in Hall.
      rewrite bool_decide_eq_false_2 in Hall by set_solver.
      assert (sample_id ∈ header_samples header_line)
        by (unfold header_samples; by apply elem_of_list_to_set).
      by specialize (Hall ltac:(assumption)).
    + destruct (kept_by_mode _ _ _ _ _ _ Hfind) as [-> ->].
      exists cols. f_equal. f_equal; [f_equal|]; set_solver.
Qed.

Lemma header_without_samples_witness :
  length (PyStr.split TAB EmptyString) <= 3
  /\ find_columns_to_keep EmptyString {[ "S1" ]} false = inl EmptySelection
  /\ find_columns_to_keep EmptyString {[ "S1" ]} true = inl EmptySelection
  /\ 3 < length (PyStr.split TAB scenario_header)
  /\ exists cols,
       find_columns_to_keep scenario_header ∅ true
       = inr (cols, header_samples scenario_header, ∅).
Proof.
  assert (Hshort : length (PyStr.split TAB EmptyString) <= 3)
    by (vm_compute; lia).
  assert (Hlong : 3 < length (PyStr.split TAB scenario_header))
    by (vm_compute; lia).
  split; [exact Hshort|].
  split; [exact (proj1 (header_without_samples EmptyString) Hshort _ false)|].
  split; [exact (proj1 (header_without_samples EmptyString) Hshort _ true)|].
  split; [exact Hlong|].
  exact (proj2 (header_without_samples scenario_header) Hlong).
Defined.

(** X7. The sample count that the run prints is the number of complete
    groups: it is -1 for a header of one or two fields, and from three
    fields on it is the number of groups the selection visits when the
    header is made of whole triples and one less than that otherwise. *)
Theorem total_samples_counts_whole_groups header_line :
  let fields := PyStr.split TAB header_line in
  let visited := Z.of_nat (length (sample_positions fields)) in
  (length fields < 3 -> total_samples header_line = (-1)%Z)
  /\ (whole_triples fields -> total_samples header_line = visited)
  /\ (3 <= length fields -> ~ whole_triples fields ->
      total_samples header_line = (visited - 1)%Z).
Proof.
  intros fields visited. unfold visited, total_samples.
  fold fields. rewrite sample_positions_length.
  assert (Hlen : 1 <= length fields).
  { pose proof (split_nonempty TAB header_line) as Hsplit.
    unfold fields. destruct (PyStr.split TAB header_line); [done|].
    simpl. lia. }
  split; [|split].
  - intros Hshort.
    pose proof (Z.div_mod (Z.of_nat (length fields) - 3) 3) as Hd.
    pose proof (Z.mod_pos_bound (Z.of_nat (length fields) - 3) 3) as Hm.
    lia.
  - intros Hw. symmetry. rewrite <- sample_positions_length.
    apply whole_triples_count. exact Hw.
  - intros Hge Hpartial.
    assert (Hr : ((Z.of_nat (length fields) - 3) mod 3 <> 0)%Z).
    { intros Hz. apply Hpartial. split; [exact Hz|exact Hge]. }
    pose proof (Z.div_mod (Z.of_nat (length fields) - 3) 3) as Hd.
    pose proof (Z.mod_pos_bound (Z.of_nat (length fields) - 3) 3) as Hm.
    pose proof (Nat.div_mod_eq (length fields - 3 + 2) 3) as Hn.
    pose proof (Nat.mod_upper_bound (length fields - 3 + 2) 3) as Hu.
    lia.
Qed.

Lemma total_samples_counts_whole_groups_witness :
  (length (PyStr.split TAB (header_of ["m"; "a1"])) < 3
   /\ total_samples (header_of ["m"; "a1"]) = (-1)%Z)
  /\ (whole_triples (PyStr.split TAB scenario_header)
      /\ total_samples scenario_header
         = Z.of_nat (length (sample_positions
                               (PyStr.split TAB scenario_header))))
  /\ (3 <= length (PyStr.split TAB partial_header)
      /\ ~ whole_triples (PyStr.split TAB partial_header)
      /\ total_samples partial_header
         = (Z.of_nat (length (sample_positions
                                (PyStr.split TAB partial_header))) - 1)%Z).
Proof.
  assert (H1 : length (PyStr.split TAB (header_of ["m"; "a1"])) < 3)
    by (vm_compute; lia).
  assert (H2 : whole_triples (PyStr.split TAB scenario_header))
    by (split; vm_compute; [reflexivity|lia]).
  assert (H3 : 3 <= length (PyStr.split TAB partial_header))
    by (vm_compute; lia).
  assert (H4 : ~ whole_triples (PyStr.split TAB partial_header)).
  { intros [Hmod _]. vm_compute in Hmod. discriminate. }
  split; [split; [exact H1|]|split; [split; [exact H2|]|split; [exact H3|]]].
  - exact (proj1 (total_samples_counts_whole_groups _) H1).
  - exact (proj1 (proj2 (total_samples_counts_whole_groups _)) H2).
  - split; [exact H4|].
    exact (proj2 (proj2 (total_samples_counts_whole_groups _)) H3 H4).
Defined.

(** ** Sample list *)

Lemma strip_idempotent s : PyStr.strip (PyStr.strip s) = PyStr.strip s.
Proof.
  unfold PyStr.strip.
  assert (Hr : forall t, PyStr.rstrip (PyStr.rstrip t) = PyStr.rstrip t).
  { induction t as [|c t IH]; [reflexivity|]. simpl.
    destruct (PyStr.rstrip t) as [|c' t'] eqn:Ht.
    - destruct (PyStr.isspace c) eqn:Hc; [reflexivity|]. simpl.
      by rewrite Hc.
    - simpl. simpl in IH. by rewrite IH. }
  assert (Hl : forall t, PyStr.lstrip (PyStr.rstrip (PyStr.lstrip t))
                         = PyStr.rstrip (PyStr.lstrip t)).
  { intros t. destruct (PyStr.lstrip t) as [|c u] eqn:Ht; [reflexivity|].
    pose proof (lstrip_head t c u Ht) as Hc.
    destruct (PyStr.rstrip (String c u)) as [|c' u'] eqn:Hu; [reflexivity|].
    apply rstrip_head in Hu as ->. simpl. by rewrite Hc. }
  by rewrite Hl, Hr.
Qed.

(** X8. Every ID that [read_sample_list] returns is a non-empty string
    without whitespace at either end, so stripping it again changes
    nothing; the returned set is never empty and never has more entries
    than the file has lines. *)
Theorem sample_ids_are_clean w sample_list_file samples :
  outcome (read_sample_list w sample_list_file) = inr samples ->
  samples <> ∅
  /\ (forall x, x ∈ samples ->
        x <> EmptyString /\ PyStr.strip x = x
        /\ (forall c t, x = String c t -> PyStr.isspace c = false)
        /\ (forall t c, x = t +:+ String c EmptyString ->
                        PyStr.isspace c = false))
  /\ (forall lines, open_lines w sample_list_file = IoOk lines ->
        size samples <= length lines).
Proof.
  unfold read_sample_list.
  destruct (open_lines w sample_list_file) as [lines| |] eqn:Hopen; simpl;
    try discriminate.
  case_bool_decide as Hne; simpl; [discriminate|]. intros [= <-].
  split; [exact Hne|]. split.
  - intros x Hx. apply collect_samples_elem in Hx as (line & _ & -> & Hx).
    split; [exact Hx|]. split; [apply strip_idempotent|].
    destruct (strip_trims line) as (_ & Hhead & Hlast).
    split; [intros c t; apply Hhead|intros t c; apply Hlast].
  - intros lines' [= <-]. clear Hne Hopen.
    unfold collect_samples.
    assert (Hgen : forall acc,
              size (fold_left add_line lines acc) <= size acc + length lines).
    { induction lines as [|l lines IH]; intros acc; simpl; [lia|].
      etrans; [apply IH|]. unfold add_line. case_bool_decide; [lia|].
      rewrite size_union_alt.
      pose proof (subseteq_size ({[PyStr.strip l]} ∖ acc : gset string)
                    {[PyStr.strip l]}) as Hle.
      rewrite size_singleton in Hle.
      assert (size ({[PyStr.strip l]} ∖ acc : gset string) <= 1)
        by (apply Hle; set_solver).
      lia. }
    specialize (Hgen ∅). rewrite size_empty in Hgen. exact Hgen.
Qed.

Lemma sample_ids_are_clean_witness :
  let w := cohort_world 512 in
  outcome (read_sample_list w "keep.txt") = inr {[ "S2"; "S9" ]}
  /\ ({[ "S2"; "S9" ]} : gset string) <> ∅
  /\ (forall x, x ∈ ({[ "S2"; "S9" ]} : gset string) ->
        x <> EmptyString /\ PyStr.strip x = x
        /\ (forall c t, x = String c t -> PyStr.isspace c = false)
        /\ (forall t c, x = t +:+ String c EmptyString ->
                        PyStr.isspace c = false))
  /\ (forall lines, open_lines w "keep.txt" = IoOk lines ->
        size ({[ "S2"; "S9" ]} : gset string) <= length lines).
Proof.
  intros w.
  assert (H : outcome (read_sample_list w "keep.txt") = inr {[ "S2"; "S9" ]})
    by (vm_compute; reflexivity).
  split; [exact H|].
  exact (sample_ids_are_clean w "keep.txt" _ H).
Defined.

Lemma fold_add_line_union lines acc :
  fold_left add_line lines acc = acc ∪ collect_samples lines.
Proof.
  apply set_eq. intros x.
  rewrite fold_add_line, elem_of_union, collect_samples_elem. tauto.
Qed.

(** X9. Loading is a union over the lines: the IDs of two lists of lines
    put one after the other are the IDs of the first together with the IDs
    of the second, and the order of the lines does not matter. *)
Theorem collect_samples_union (lines1 lines2 : list string) :
  collect_samples (lines1 ++ lines2)
  = collect_samples lines1 ∪ collect_samples lines2
  /\ collect_samples (lines2 ++ lines1) = collect_samples (lines1 ++ lines2)
  /\ collect_samples (rev lines1) = collect_samples lines1.
Proof.
  assert (Happ : forall l1 l2,
            collect_samples (l1 ++ l2)
            = collect_samples l1 ∪ collect_samples l2).
  { intros l1 l2. unfold collect_samples at 1.
    rewrite fold_left_app. fold (collect_samples l1).
    apply fold_add_line_union. }
  split; [apply Happ|]. split.
  - rewrite !Happ. set_solver.
  - apply collect_samples_same_lines. intros line.
    rewrite !list_elem_of_In. symmetry. apply in_rev.
Qed.

(** ** The stages of a run *)

Lemma read_sample_list_inl w sample_list_file f :
  outcome (read_sample_list w sample_list_file) = inl f ->
  read_sample_list w sample_list_file
  = ([ReadList sample_list_file; Printed (MsgError f)], inl f)
  /\ (f = NotFound sample_list_file \/ f = ReadError \/ f = EmptySampleList).
Proof.
  unfold read_sample_list.
  destruct (open_lines w sample_list_file) as [lines| |]; simpl.
  - case_bool_decide; simpl; [|discriminate]. intros [= <-]. auto.
  - intros [= <-]. auto.
  - intros [= <-]. auto.
Qed.

Lemma read_header_inl w input_file f :
  outcome (read_header w input_file) = inl f ->
  read_header w input_file
  = ([ReadHeader input_file; Printed (MsgError f)], inl f)
  /\ (f = NotFound input_file \/ f = ReadError).
Proof.
  unfold read_header.
  destruct (if PyStr.endswith input_file ".gz"
            then gzip_readline w input_file else open_readline w input_file);
    simpl; [discriminate| |]; intros [= <-]; auto.
Qed.

Lemma subset_beagle_no_input w input_file sample_list_file output_file
    remove_mode :
  path_exists w input_file = false ->
  subset_beagle w input_file sample_list_file output_file remove_mode
  = ([Printed MsgBanner; Exists input_file;
      Printed (MsgError (NotFound input_file))], inl (NotFound input_file)).
Proof. intros Hno. unfold subset_beagle. rewrite Hno. reflexivity. Qed.

Lemma subset_beagle_list_fails w input_file sample_list_file output_file
    remove_mode f :
  path_exists w input_file = true ->
  outcome (read_sample_list w sample_list_file) = inl f ->
  subset_beagle w input_file sample_list_file output_file remove_mode
  = ([Printed MsgBanner; Exists input_file;
      Printed (MsgReadingList sample_list_file); ReadList sample_list_file;
      Printed (MsgError f)], inl f).
Proof.
  intros Hexists Hlist. unfold subset_beagle.
  rewrite Hexists. unfold print, emit. cbn [bind negb].
  rewrite (proj1 (read_sample_list_inl _ _ _ Hlist)). reflexivity.
Qed.

Lemma subset_beagle_header_fails w input_file sample_list_file output_file
    remove_mode sample_list f :
  path_exists w input_file = true ->
  outcome (read_sample_list w sample_list_file) = inr sample_list ->
  outcome (read_header w input_file) = inl f ->
  subset_beagle w input_file sample_list_file output_file remove_mode
  = ([Printed MsgBanner; Exists input_file;
      Printed (MsgReadingList sample_list_file); ReadList sample_list_file;
      Printed (MsgFound (size sample_list));
      Printed (MsgReadingHeader input_file); ReadHeader input_file;
      Printed (MsgError f)], inl f).
Proof.
  intros Hexists Hlist Hheader. unfold subset_beagle.
  rewrite Hexists. unfold print, emit. cbn [bind negb].
  rewrite (read_sample_list_inr _ _ _ Hlist). cbn [bind].
  rewrite (proj1 (read_header_inl _ _ _ Hheader)). reflexivity.
Qed.

Lemma transform_no_size w columns input_file output_file :
  getsize w input_file = None ->
  transform w columns input_file output_file
  = ([Printed (MsgProcessing input_file output_file); GetSize input_file],
     inl Uncaught).
Proof.
  intros Hsize. unfold transform, generate_awk_command. rewrite Hsize.
  reflexivity.
Qed.

Lemma execute_raised w cmd has_pv output_file :
  popen w cmd = ProcRaised ->
  execute w cmd has_pv output_file
  = ([Spawn cmd; Printed (MsgError UnexpectedError)], inl UnexpectedError).
Proof. intros Hraise. unfold execute. rewrite Hraise. reflexivity. Qed.

Lemma execute_nonzero w cmd has_pv output_file stdout return_code :
  popen w cmd = ProcExited stdout return_code -> return_code <> 0%Z ->
  execute w cmd has_pv output_file
  = (Spawn cmd :: trace (print_progress has_pv stdout)
       ++ [Printed (MsgError (TransformFailed return_code))],
     inl (TransformFailed return_code)).
Proof.
  intros Hexit Hne. unfold execute. rewrite Hexit.
  pose proof (print_progress_ok has_pv stdout) as Hok.
  destruct (print_progress has_pv stdout) as [t [f|[]]]; [discriminate|].
  unfold emit. cbn [bind].
  rewrite bool_decide_eq_true_2 by exact Hne. reflexivity.
Qed.

(** What the pieces of a trace start, report and announce. *)

Lemma spawned_app t1 t2 : spawned (t1 ++ t2) = spawned t1 ++ spawned t2.
Proof. apply omap_app. Qed.

Lemma reported_app t1 t2 : reported (t1 ++ t2) = reported t1 ++ reported t2.
Proof. apply omap_app. Qed.

Lemma announces_success_app t1 t2 :
  announces_success (t1 ++ t2)
  = announces_success t1 || announces_success t2.
Proof. apply existsb_app. Qed.

Lemma report_selection_quiet remove_mode sample_list cols kept removed :
  let t := trace (report_selection remove_mode sample_list cols kept removed) in
  spawned t = [] /\ reported t = [] /\ announces_success t = false.
Proof.
  unfold report_selection.
  destruct remove_mode; simpl; case_bool_decide; simpl; auto.
Qed.

Lemma print_progress_quiet has_pv stdout :
  let t := trace (print_progress has_pv stdout) in
  spawned t = [] /\ reported t = [] /\ announces_success t = false.
Proof.
  unfold print_progress. destruct has_pv; [|simpl; auto].
  induction stdout as [|line stdout IH]; [simpl; auto|].
  simpl. destruct (fold_right _ _ stdout) as [t r]. simpl in *. exact IH.
Qed.

Lemma check_output_quiet w output_file :
  spawned (trace (check_output w output_file)) = []
  /\ (announces_success (trace (check_output w output_file)) = true
      <-> outcome (check_output w output_file) = inr tt).
Proof.
  unfold check_output.
  destruct (path_exists_after w output_file);
    [destruct (getsize_after w output_file)|];
    simpl; (split; [reflexivity|]); split; first [done|discriminate].
Qed.

(** The run stops at the first stage that fails. *)
Lemma subset_beagle_cases w input_file sample_list_file output_file
    remove_mode :
  let run :=
    subset_beagle w input_file sample_list_file output_file remove_mode in
  (path_exists w input_file = false)
  \/ (path_exists w input_file = true
      /\ exists f, outcome (read_sample_list w sample_list_file) = inl f)
  \/ (path_exists w input_file = true
      /\ exists sample_list f,
           outcome (read_sample_list w sample_list_file) = inr sample_list
           /\ outcome (read_header w input_file) = inl f)
  \/ (path_exists w input_file = true
      /\ exists sample_list header_line f,
           outcome (read_sample_list w sample_list_file) = inr sample_list
           /\ outcome (read_header w input_file) = inr header_line
           /\ find_columns_to_keep header_line sample_list remove_mode
              = inl f)
  \/ (exists sample_list header_line cols kept removed,
        path_exists w input_file = true
        /\ outcome (read_sample_list w sample_list_file) = inr sample_list
        /\ outcome (read_header w input_file) = inr header_line
        /\ find_columns_to_keep header_line sample_list remove_mode
           = inr (cols, kept, removed)).
Proof.
  intros run.
  destruct (path_exists w input_file); [|by left].
  destruct (outcome (read_sample_list w sample_list_file))
    as [f|sample_list] eqn:Hlist; [right; left; eauto|].
  destruct (outcome (read_header w input_file))
    as [f|header_line] eqn:Hheader; [right; right; left; eauto 10|].
  destruct (find_columns_to_keep header_line sample_list remove_mode)
    as [f|[[cols kept] removed]] eqn:Hfind.
  - right; right; right; left. eauto 10.
  - right; right; right; right. eauto 10.
Qed.

Lemma transform_cases w columns input_file output_file :
  let stage := transform w columns input_file output_file in
  (getsize w input_file = None
   /\ stage = ([Printed (MsgProcessing input_file output_file);
                GetSize input_file], inl Uncaught))
  \/ exists file_size,
       getsize w input_file = Some file_size
       /\ let cmd := command w columns input_file output_file file_size in
          let head :=
            [Printed (MsgProcessing input_file output_file);
             GetSize input_file; PvCheck;
             Printed (if pv_available w then MsgProgress else MsgInstallPv);
             Spawn cmd] in
          (popen w cmd = ProcRaised
           /\ stage = (head ++ [Printed (MsgError UnexpectedError)],
                       inl UnexpectedError))
          \/ (exists stdout return_code,
                popen w cmd = ProcExited stdout return_code
                /\ return_code <> 0%Z
                /\ stage
                   = (head ++ trace (print_progress (pv_available w) stdout)
                        ++ [Printed (MsgError (TransformFailed return_code))],
                      inl (TransformFailed return_code)))
          \/ (exists stdout,
                popen w cmd = ProcExited stdout 0
                /\ stage
                   = (head ++ trace (print_progress (pv_available w) stdout)
                        ++ trace (check_output w output_file),
                      outcome (check_output w output_file))).
Proof.
  intros stage. unfold stage.
  destruct (getsize w input_file) as [file_size|] eqn:Hsize.
  - right. exists file_size. split; [reflexivity|]. cbv zeta.
    rewrite (transform_spawns _ _ _ _ _ Hsize).
    set (cmd := command w columns input_file output_file file_size).
    destruct (popen w cmd) as [|stdout return_code] eqn:Hpopen.
    + left. split; [reflexivity|].
      by rewrite (execute_raised _ _ _ _ Hpopen).
    + destruct (decide (return_code = 0%Z)) as [->|Hne].
      * right; right. exists stdout. split; [reflexivity|].
        by rewrite (execute_exit_zero _ _ _ _ _ Hpopen).
      * right; left. exists stdout, return_code.
        split; [reflexivity|]. split; [exact Hne|].
        by rewrite (execute_nonzero _ _ _ _ _ _ Hpopen Hne).
  - left. split; [reflexivity|]. by apply transform_no_size.
Qed.

Lemma opened_app t1 t2 : opened (t1 ++ t2) = opened t1 ++ opened t2.
Proof. apply omap_app. Qed.

Lemma report_selection_opens_nothing remove_mode sample_list cols kept removed :
  opened (trace (report_selection remove_mode sample_list cols kept removed))
  = [].
Proof.
  unfold report_selection.
  destruct remove_mode; simpl; case_bool_decide; reflexivity.
Qed.

Lemma print_progress_opens_nothing has_pv stdout :
  opened (trace (print_progress has_pv stdout)) = [].
Proof.
  unfold print_progress. destruct has_pv; [|reflexivity].
  induction stdout as [|line stdout IH]; [reflexivity|].
  simpl. destruct (fold_right _ _ stdout) as [t r]. simpl in *. exact IH.
Qed.

(** The observation of a run that reaches the transform stage, from the
    observation of that stage. *)
Lemma observe_proceeds w input_file sample_list_file output_file
    remove_mode sample_list header_line cols kept removed :
  path_exists w input_file = true ->
  outcome (read_sample_list w sample_list_file) = inr sample_list ->
  outcome (read_header w input_file) = inr header_line ->
  find_columns_to_keep header_line sample_list remove_mode
  = inr (cols, kept, removed) ->
  let stage := transform w cols input_file (effective_output output_file) in
  observe (subset_beagle w input_file sample_list_file output_file
                         remove_mode)
  = Observation (outcome stage)
      ([sample_list_file; input_file] ++ opened (trace stage))
      (spawned (trace stage)) (reported (trace stage))
      (announces_success (trace stage)).
Proof.
  intros Hexists Hlist Hheader Hfind stage. unfold observe.
  rewrite (subset_beagle_proceeds _ _ _ _ _ _ _ _ _ _
             Hexists Hlist Hheader Hfind).
  fold stage. cbn [outcome trace fst snd].
  rewrite !opened_app, !spawned_app, !reported_app, !announces_success_app.
  destruct (report_selection_quiet remove_mode sample_list cols kept removed)
    as (-> & -> & ->).
  rewrite report_selection_opens_nothing. reflexivity.
Qed.

(** The observation of the transform stage, case by case. *)
Lemma observe_transform w columns input_file output_file :
  let stage := transform w columns input_file output_file in
  let seen := Observation (outcome stage) (opened (trace stage))
                (spawned (trace stage)) (reported (trace stage))
                (announces_success (trace stage)) in
  (getsize w input_file = None
   /\ seen = Observation (inl Uncaught) [] [] [] false)
  \/ exists file_size,
       getsize w input_file = Some file_size
       /\ let cmd := command w columns input_file output_file file_size in
          (popen w cmd = ProcRaised
           /\ seen = Observation (inl UnexpectedError) [] [cmd]
                       [UnexpectedError] false)
          \/ (exists stdout return_code,
                popen w cmd = ProcExited stdout return_code
                /\ return_code <> 0%Z
                /\ seen = Observation (inl (TransformFailed return_code)) []
                            [cmd] [TransformFailed return_code] false)
          \/ (exists stdout,
                popen w cmd = ProcExited stdout 0
                /\ path_exists_after w output_file = false
                /\ seen = Observation (inl OutputNotCreated) [] [cmd]
                            [OutputNotCreated] false)
          \/ (exists stdout,
                popen w cmd = ProcExited stdout 0
                /\ path_exists_after w output_file = true
                /\ getsize_after w output_file = None
                /\ seen = Observation (inl UnexpectedError) [] [cmd]
                            [UnexpectedError] false)
          \/ (exists stdout output_size,
                popen w cmd = ProcExited stdout 0
                /\ path_exists_after w output_file = true
                /\ getsize_after w output_file = Some output_size
                /\ seen = Observation (inr tt) [] [cmd] [] true).
Proof.
  intros stage seen. unfold seen, stage.
  destruct (transform_cases w columns input_file output_file)
    as [[Hsize ->]|(file_size & Hsize & Hcases)].
  { left. split; [exact Hsize|reflexivity]. }
  right. exists file_size. split; [exact Hsize|]. cbv zeta in Hcases |- *.
  set (cmd := command w columns input_file output_file file_size) in *.
  destruct Hcases as [[Hpopen ->]|[(stdout & rc & Hpopen & Hne & ->)
                                  |(stdout & Hpopen & ->)]].
  - left. split; [exact Hpopen|]. by destruct (pv_available w).
  - right; left. exists stdout, rc. split; [exact Hpopen|].
    split; [exact Hne|]. cbn [outcome trace fst snd].
    rewrite !opened_app, !spawned_app, !reported_app, !announces_success_app.
    destruct (print_progress_quiet (pv_available w) stdout) as (-> & -> & ->).
    rewrite print_progress_opens_nothing. by destruct (pv_available w).
  - right; right. cbn [outcome trace fst snd].
    rewrite !opened_app, !spawned_app, !reported_app, !announces_success_app.
    destruct (print_progress_quiet (pv_available w) stdout) as (-> & -> & ->).
    rewrite print_progress_opens_nothing.
    assert (Hhead : forall b : bool,
              opened [Printed (MsgProcessing input_file output_file);
                      GetSize input_file; PvCheck;
                      Printed (if b then MsgProgress else MsgInstallPv);
                      Spawn cmd] = []
              /\ spawned [Printed (MsgProcessing input_file output_file);
                          GetSize input_file; PvCheck;
                          Printed (if b then MsgProgress else MsgInstallPv);
                          Spawn cmd] = [cmd]
              /\ reported [Printed (MsgProcessing input_file output_file);
                           GetSize input_file; PvCheck;
                           Printed (if b then MsgProgress else MsgInstallPv);
                           Spawn cmd] = []
              /\ announces_success
                   [Printed (MsgProcessing input_file output_file);
                    GetSize input_file; PvCheck;
                    Printed (if b then MsgProgress else MsgInstallPv);
                    Spawn cmd] = false) by (by intros []).
    destruct (Hhead (pv_available w)) as (-> & -> & -> & ->). clear Hhead.
    unfold check_output.
    destruct (path_exists_after w output_file) eqn:Hthere.
    + destruct (getsize_after w output_file) as [output_size|] eqn:Hout.
      * right; right. exists stdout, output_size. auto.
      * right; left. exists stdout. auto.
    + left. exists stdout. auto.
Qed.

Lemma find_columns_to_keep_inl header_line sample_list remove_mode f :
  find_columns_to_keep header_line sample_list remove_mode = inl f ->
  f = EmptySelection.
Proof.
  unfold find_columns_to_keep. simpl.
  case_bool_decide; [|discriminate]. by intros [= <-].
Qed.

(** The observation of a whole run, case by case. *)
Lemma observe_run w input_file sample_list_file output_file remove_mode :
  let seen := observe (subset_beagle w input_file sample_list_file
                                     output_file remove_mode) in
  let output := effective_output output_file in
  (path_exists w input_file = false
   /\ seen = Observation (inl (NotFound input_file)) [] []
               [NotFound input_file] false)
  \/ (path_exists w input_file = true
      /\ exists f,
           outcome (read_sample_list w sample_list_file) = inl f
           /\ seen = Observation (inl f) [sample_list_file] [] [f] false)
  \/ (path_exists w input_file = true
      /\ exists sample_list f,
           outcome (read_sample_list w sample_list_file) = inr sample_list
           /\ outcome (read_header w input_file) = inl f
           /\ seen = Observation (inl f) [sample_list_file; input_file] []
                       [f] false)
  \/ (path_exists w input_file = true
      /\ exists sample_list header_line,
           outcome (read_sample_list w sample_list_file) = inr sample_list
           /\ outcome (read_header w input_file) = inr header_line
           /\ find_columns_to_keep header_line sample_list remove_mode
              = inl EmptySelection
           /\ seen = Observation (inl EmptySelection)
                       [sample_list_file; input_file] []
                       [EmptySelection] false)
  \/ (exists sample_list header_line cols kept removed,
        path_exists w input_file = true
        /\ outcome (read_sample_list w sample_list_file) = inr sample_list
        /\ outcome (read_header w input_file) = inr header_line
        /\ find_columns_to_keep header_line sample_list remove_mode
           = inr (cols, kept, removed)
        /\ ((getsize w input_file = None
             /\ seen = Observation (inl Uncaught)
                         [sample_list_file; input_file] [] [] false)
            \/ exists file_size,
                 getsize w input_file = Some file_size
                 /\ let cmd := command w cols input_file output file_size in
                    exists result stdout,
                      seen = Observation result
                               [sample_list_file; input_file] [cmd]
                               (match result with
                                | inl f => [f] | inr _ => [] end)
                               (match result with
                                | inl _ => false | inr _ => true end)
                      /\ ((popen w cmd = ProcRaised
                           /\ result = inl UnexpectedError)
                          \/ (exists return_code,
                                popen w cmd = ProcExited stdout return_code
                                /\ return_code <> 0%Z
                                /\ result = inl (TransformFailed return_code))
                          \/ (popen w cmd = ProcExited stdout 0
                              /\ path_exists_after w output = false
                              /\ result = inl OutputNotCreated)
                          \/ (popen w cmd = ProcExited stdout 0
                              /\ path_exists_after w output = true
                              /\ getsize_after w output = None
                              /\ result = inl UnexpectedError)
                          \/ (popen w cmd = ProcExited stdout 0
                              /\ path_exists_after w output = true
                              /\ is_Some (getsize_after w output)
                              /\ result = inr tt)))).
Proof.
  intros seen output. unfold seen.
  destruct (subset_beagle_cases w input_file sample_list_file output_file
              remove_mode)
    as [Hno|[[Hex (f & Hl)]|[[Hex (S & f & Hl & Hh)]
       |[[Hex (S & h & f & Hl & Hh & Hf)]
        |(S & h & cols & kept & removed & Hex & Hl & Hh & Hf)]]]].
  - left. split; [exact Hno|].
    by rewrite (subset_beagle_no_input _ _ _ _ _ Hno).
  - right; left. split; [exact Hex|]. exists f. split; [exact Hl|].
    by rewrite (subset_beagle_list_fails _ _ _ _ _ _ Hex Hl).
  - right; right; left. split; [exact Hex|]. exists S, f.
    split; [exact Hl|]. split; [exact Hh|].
    by rewrite (subset_beagle_header_fails _ _ _ _ _ _ _ Hex Hl Hh).
  - right; right; right; left. split; [exact Hex|].
    assert (f = EmptySelection) as ->.
    { by apply (find_columns_to_keep_inl h S remove_mode). }
    exists S, h. split; [exact Hl|]. split; [exact Hh|]. split; [exact Hf|].
    by rewrite (subset_beagle_selection_exit _ _ _ _ _ _ _ _ Hex Hl Hh Hf).
  - right; right; right; right. exists S, h, cols, kept, removed.
    split; [exact Hex|]. split; [exact Hl|]. split; [exact Hh|].
    split; [exact Hf|].
    rewrite (observe_proceeds _ _ _ _ _ _ _ _ _ _ Hex Hl Hh Hf).
    fold output.
    destruct (observe_transform w cols input_file output)
      as [[Hsize Hseen]|(file_size & Hsize & Hcases)].
    { left. split; [exact Hsize|]. by injection Hseen as -> -> -> -> ->. }
    right. exists file_size. split; [exact Hsize|]. cbv zeta in Hcases |- *.
    set (cmd := command w cols input_file output file_size) in *.
    destruct Hcases
      as [[Hp Hseen]|[(stdout & rc & Hp & Hne & Hseen)
         |[(stdout & Hp & Ht & Hseen)|[(stdout & Hp & Ht & Hs & Hseen)
          |(stdout & n & Hp & Ht & Hs & Hseen)]]]];
      injection Hseen as -> -> -> -> ->.
    + exists (inl UnexpectedError), []. split; [reflexivity|]. by left.
    + exists (inl (TransformFailed rc)), stdout. split; [reflexivity|].
      right; left. eauto.
    + exists (inl OutputNotCreated), stdout. split; [reflexivity|].
      right; right; left. auto.
    + exists (inl UnexpectedError), stdout. split; [reflexivity|].
      right; right; right; left. auto.
    + exists (inr tt), stdout. split; [reflexivity|].
      right; right; right; right. rewrite Hs. eauto.
Qed.

(** ** Failures before the command is started *)

(** X10. When the input file does not exist the run ends at once with
    [NotFound] for the input, whatever the other arguments are: no file is
    opened, no command is started, and that one error is reported. *)
Theorem missing_input_stops_first w input_file sample_list_file output_file
    remove_mode :
  path_exists w input_file = false ->
  observe (subset_beagle w input_file sample_list_file output_file
                         remove_mode)
  = Observation (inl (NotFound input_file)) [] [] [NotFound input_file] false.
Proof.
  intros Hno. by rewrite (subset_beagle_no_input _ _ _ _ _ Hno).
Qed.

Lemma missing_input_stops_first_witness :
  let w := uniform_world false IoNotFound IoNotFound None true ProcRaised
                         false None in
  path_exists w "cohort.beagle" = false
  /\ observe (subset_beagle w "cohort.beagle" "keep.txt" "subset" true)
     = Observation (inl (NotFound "cohort.beagle")) [] []
                   [NotFound "cohort.beagle"] false.
Proof.
  intros w.
  assert (H : path_exists w "cohort.beagle" = false) by reflexivity.
  split; [exact H|].
  exact (missing_input_stops_first w "cohort.beagle" "keep.txt" "subset"
           true H).
Defined.

(** X11. When the sample list cannot be loaded, because the file is
    missing, cannot be read or holds no ID, the run ends with that failure:
    only the list file has been opened, the header is not read, no command
    is started, and that one error is reported. *)
Theorem sample_list_failure_stops_run w input_file sample_list_file
    output_file remove_mode f :
  path_exists w input_file = true ->
  outcome (read_sample_list w sample_list_file) = inl f ->
  (f = NotFound sample_list_file \/ f = ReadError \/ f = EmptySampleList)
  /\ observe (subset_beagle w input_file sample_list_file output_file
                            remove_mode)
     = Observation (inl f) [sample_list_file] [] [f] false.
Proof.
  intros Hex Hl. split; [apply (read_sample_list_inl _ _ _ Hl)|].
  by rewrite (subset_beagle_list_fails _ _ _ _ _ _ Hex Hl).
Qed.

Lemma sample_list_failure_stops_run_witness :
  let w := uniform_world true IoFailed (IoOk scenario_header) (Some 4096)
                         true (ProcExited [] 0) true (Some 512) in
  path_exists w "cohort.beagle" = true
  /\ outcome (read_sample_list w "keep.txt") = inl ReadError
  /\ (ReadError = NotFound "keep.txt" \/ ReadError = ReadError
      \/ ReadError = EmptySampleList)
  /\ observe (subset_beagle w "cohort.beagle" "keep.txt" "subset" false)
     = Observation (inl ReadError) ["keep.txt"] [] [ReadError] false.
Proof.
  intros w.
  assert (H1 : path_exists w "cohort.beagle" = true) by reflexivity.
  assert (H2 : outcome (read_sample_list w "keep.txt") = inl ReadError)
    by reflexivity.
  split; [exact H1|]. split; [exact H2|].
  exact (sample_list_failure_stops_run w "cohort.beagle" "keep.txt" "subset"
           false ReadError H1 H2).
Defined.

(** X12. When the header cannot be read, the run ends with [NotFound] for
    the input or with [ReadError]: the list and the input have been opened,
    no command is started, and that one error is reported. *)
Theorem header_failure_stops_run w input_file sample_list_file output_file
    remove_mode sample_list f :
  path_exists w input_file = true ->
  outcome (read_sample_list w sample_list_file) = inr sample_list ->
  outcome (read_header w input_file) = inl f ->
  (f = NotFound input_file \/ f = ReadError)
  /\ observe (subset_beagle w input_file sample_list_file output_file
                            remove_mode)
     = Observation (inl f) [sample_list_file; input_file] [] [f] false.
Proof.
  intros Hex Hl Hh. split; [apply (read_header_inl _ _ _ Hh)|].
  by rewrite (subset_beagle_header_fails _ _ _ _ _ _ _ Hex Hl Hh).
Qed.

Lemma header_failure_stops_run_witness :
  let w := uniform_world true (IoOk ["S2" +:+ NL]) IoFailed (Some 4096)
                         true (ProcExited [] 0) true (Some 512) in
  path_exists w "cohort.beagle" = true
  /\ outcome (read_sample_list w "keep.txt") = inr {[ "S2" ]}
  /\ outcome (read_header w "cohort.beagle") = inl ReadError
  /\ (ReadError = NotFound "cohort.beagle" \/ ReadError = ReadError)
  /\ observe (subset_beagle w "cohort.beagle" "keep.txt" "subset" false)
     = Observation (inl ReadError) ["keep.txt"; "cohort.beagle"] []
                   [ReadError] false.
Proof.
  intros w.
  assert (H1 : path_exists w "cohort.beagle" = true) by reflexivity.
  assert (H2 : outcome (read_sample_list w "keep.txt") = inr {[ "S2" ]})
    by (vm_compute; reflexivity).
  assert (H3 : outcome (read_header w "cohort.beagle") = inl ReadError)
    by reflexivity.
  split; [exact H1|]. split; [exact H2|]. split; [exact H3|].
  exact (header_failure_stops_run w "cohort.beagle" "keep.txt" "subset"
           false {[ "S2" ]} ReadError H1 H2 H3).
Defined.

(** X13. The header that [read_header] returns is the first line without
    the whitespace at its two ends: stripping it again changes nothing, and
    it neither starts nor ends with a whitespace character such as a tab or
    a line end. *)
Theorem header_is_stripped w input_file header_line :
  outcome (read_header w input_file) = inr header_line ->
  PyStr.strip header_line = header_line
  /\ (forall c t, header_line = String c t -> PyStr.isspace c = false)
  /\ (forall t c, header_line = t +:+ String c EmptyString ->
                  PyStr.isspace c = false)
  /\ exists line,
       (if PyStr.endswith input_file ".gz" then gzip_readline w input_file
        else open_readline w input_file) = IoOk line
       /\ header_line = PyStr.strip line.
Proof.
  unfold read_header.
  destruct (if PyStr.endswith input_file ".gz"
            then gzip_readline w input_file else open_readline w input_file)
    as [line| |]; simpl; try discriminate.
  intros [= <-]. split; [apply strip_idempotent|].
  destruct (strip_trims line) as (_ & Hhead & Hlast).
  split; [exact Hhead|]. split; [exact Hlast|]. eauto.
Qed.

Lemma header_is_stripped_witness :
  let w := uniform_world true (IoOk ["S2" +:+ NL])
             (IoOk (String TAB (scenario_header +:+ String TAB NL)))
             (Some 4096) true (ProcExited [] 0) true (Some 512) in
  outcome (read_header w "cohort.beagle") = inr scenario_header
  /\ PyStr.strip scenario_header = scenario_header
  /\ (forall c t, scenario_header = String c t -> PyStr.isspace c = false)
  /\ (forall t c, scenario_header = t +:+ String c EmptyString ->
                  PyStr.isspace c = false)
  /\ exists line,
       (if PyStr.endswith "cohort.beagle" ".gz"
        then gzip_readline w "cohort.beagle"
        else open_readline w "cohort.beagle") = IoOk line
       /\ scenario_header = PyStr.strip line.
Proof.
  intros w.
  assert (H : outcome (read_header w "cohort.beagle") = inr scenario_header)
    by (vm_compute; reflexivity).
  split; [exact H|].
  exact (header_is_stripped w "cohort.beagle" scenario_header H).
Defined.

(** ** The command *)


(** X14. When the size of the input cannot be read after the selection has
    succeeded, the exception is not caught: the run ends without an error
    message of its own and without having started any command. *)
Theorem unreadable_size_is_uncaught w input_file sample_list_file output_file
    remove_mode sample_list header_line cols kept removed :
  path_exists w input_file = true ->
  outcome (read_sample_list w sample_list_file) = inr sample_list ->
  outcome (read_header w input_file) = inr header_line ->
  find_columns_to_keep header_line sample_list remove_mode
  = inr (cols, kept, removed) ->
  getsize w input_file = None ->
  observe (subset_beagle w input_file sample_list_file output_file
                         remove_mode)
  = Observation (inl Uncaught) [sample_list_file; input_file] [] [] false.
Proof.
  intros Hex Hl Hh Hf Hsize.
  rewrite (observe_proceeds _ _ _ _ _ _ _ _ _ _ Hex Hl Hh Hf).
  by rewrite (transform_no_size _ _ _ _ Hsize).
Qed.

Lemma unreadable_size_is_uncaught_witness :
  let w := uniform_world true (IoOk ["S2" +:+ NL]) (IoOk scenario_header)
                         None true (ProcExited [] 0) true (Some 512) in
  path_exists w "cohort.beagle" = true
  /\ outcome (read_sample_list w "keep.txt") = inr {[ "S2" ]}
  /\ outcome (read_header w "cohort.beagle") = inr scenario_header
  /\ find_columns_to_keep scenario_header {[ "S2" ]} false
     = inr ([1; 2; 3; 7; 8; 9], {[ "S2" ]}, {[ "S1"; "S3" ]})
  /\ getsize w "cohort.beagle" = None
  /\ observe (subset_beagle w "cohort.beagle" "keep.txt" "subset" false)
     = Observation (inl Uncaught) ["keep.txt"; "cohort.beagle"] [] [] false.
Proof.
  intros w.
  assert (H1 : path_exists w "cohort.beagle" = true) by reflexivity.
  assert (H2 : outcome (read_sample_list w "keep.txt") = inr {[ "S2" ]})
    by (vm_compute; reflexivity).
  assert (H3 : outcome (read_header w "cohort.beagle") = inr scenario_header)
    by (vm_compute; reflexivity).
  assert (H4 : find_columns_to_keep scenario_header {[ "S2" ]} false
               = inr ([1; 2; 3; 7; 8; 9], {[ "S2" ]}, {[ "S1"; "S3" ]}))
    by (vm_compute; reflexivity).
  assert (H5 : getsize w "cohort.beagle" = None) by reflexivity.
  split; [exact H1|]. split; [exact H2|]. split; [exact H3|].
  split; [exact H4|]. split; [exact H5|].
  exact (unreadable_size_is_uncaught w "cohort.beagle" "keep.txt" "subset"
           false _ _ _ _ _ H1 H2 H3 H4 H5).
Defined.





(** ** Exit of the run *)

(** X17. A run succeeds exactly when every stage before the command
    succeeds, the command exits with status 0, and afterwards the output
    file exists and its size can be read; and the success banner is printed
    exactly by the runs that succeed. *)
Theorem success_exactly_when w input_file sample_list_file output_file
    remove_mode :
  let run := subset_beagle w input_file sample_list_file output_file
                           remove_mode in
  let output := effective_output output_file in
  (outcome run = inr tt
   <-> exists sample_list header_line cols kept removed file_size stdout,
         validated w input_file sample_list_file remove_mode sample_list
                   header_line cols kept removed file_size
         /\ popen w (command w cols input_file output file_size)
            = ProcExited stdout 0
         /\ path_exists_after w output = true
         /\ is_Some (getsize_after w output))
  /\ (announces_success (trace run) = true <-> outcome run = inr tt).
Proof.
  intros run output.
  change (outcome run) with (obs_outcome (observe run)).
  change (announces_success (trace run)) with (obs_success (observe run)).
  destruct (observe_run w input_file sample_list_file output_file remove_mode)
    as [[Hno Hs]|[[Hex (f & Hl & Hs)]|[[Hex (S & f & Hl & Hh & Hs)]
       |[[Hex (S & h & Hl & Hh & Hf & Hs)]
        |(S & h & cols & kept & removed & Hex & Hl & Hh & Hf & Hrest)]]]];
    fold run in Hs || fold run in Hrest.
  1-4: rewrite Hs; simpl; split; [split; [discriminate|]|split; discriminate].
  - intros (? & ? & ? & ? & ? & ? & ? & (Hex' & _) & _). congruence.
  - intros (? & ? & ? & ? & ? & ? & ? & (_ & Hl' & _) & _). congruence.
  - intros (? & ? & ? & ? & ? & ? & ? & (_ & Hl' & Hh' & _) & _). congruence.
  - intros (S' & h' & ? & ? & ? & ? & ? & (_ & Hl' & Hh' & Hf' & _) & _).
    assert (S' = S) as -> by congruence.
    assert (h' = h) as -> by congruence. congruence.
  - destruct Hrest as [[Hsize Hs]|(sz & Hsize & Hrest)].
    { rewrite Hs; simpl; split; [split; [discriminate|]|split; discriminate].
      intros (? & ? & ? & ? & ? & ? & ? & (_ & _ & _ & _ & Hsize') & _).
      congruence. }
    cbv zeta in Hrest. fold output in Hrest.
    destruct Hrest as (result & stdout & Hs & Hcases). rewrite Hs. simpl.
    assert (Hback : forall S' h' c' k' r' sz' out',
              validated w input_file sample_list_file remove_mode S' h' c' k'
                        r' sz' ->
              popen w (command w c' input_file output sz')
              = ProcExited out' 0 ->
              popen w (command w cols input_file output sz)
              = ProcExited out' 0).
    { intros S' h' c' k' r' sz' out' (_ & Hl' & Hh' & Hf' & Hsize') Hp.
      assert (S' = S) as -> by congruence.
      assert (h' = h) as -> by congruence.
      assert (c' = cols) as -> by congruence.
      assert (sz' = sz) as -> by congruence. exact Hp. }
    destruct Hcases as [[Hp ->]|[(rc & Hp & Hne & ->)|[(Hp & Ht & ->)
      |[(Hp & Ht & Hn & ->)|(Hp & Ht & Hn & ->)]]]].
    + split; [split; [discriminate|]|split; discriminate].
      intros (? & ? & ? & ? & ? & ? & ? & Hv & Hp' & _).
      pose proof (Hback _ _ _ _ _ _ _ Hv Hp'). congruence.
    + split; [split; [discriminate|]|split; discriminate].
      intros (? & ? & ? & ? & ? & ? & ? & Hv & Hp' & _).
      pose proof (Hback _ _ _ _ _ _ _ Hv Hp'). congruence.
    + split; [split; [discriminate|]|split; discriminate].
      intros (? & ? & ? & ? & ? & ? & ? & _ & _ & Ht' & _). congruence.
    + split; [split; [discriminate|]|split; discriminate].
      intros (? & ? & ? & ? & ? & ? & ? & _ & _ & _ & [n Hn']). congruence.
    + split; [split; [intros _|done]|done].
      exists S, h, cols, kept, removed, sz, stdout.
      unfold validated. auto 10.
Qed.

Lemma success_exactly_when_witness :
  let w := cohort_world 512 in
  let run := subset_beagle w "cohort.beagle.gz" "keep.txt" "subset" false in
  validated w "cohort.beagle.gz" "keep.txt" false {[ "S2"; "S9" ]}
            scenario_header [1; 2; 3; 7; 8; 9] {[ "S2" ]} {[ "S1"; "S3" ]} 4096
  /\ popen w (command w [1; 2; 3; 7; 8; 9] "cohort.beagle.gz"
                      (effective_output "subset") 4096) = ProcExited [] 0
  /\ path_exists_after w (effective_output "subset") = true
  /\ is_Some (getsize_after w (effective_output "subset"))
  /\ outcome run = inr tt
  /\ announces_success (trace run) = true.
Proof.
  intros w run.
  assert (Hv : validated w "cohort.beagle.gz" "keep.txt" false
                 {[ "S2"; "S9" ]} scenario_header [1; 2; 3; 7; 8; 9]
                 {[ "S2" ]} {[ "S1"; "S3" ]} 4096).
  { repeat split; vm_compute; reflexivity. }
  assert (Hp : popen w (command w [1; 2; 3; 7; 8; 9] "cohort.beagle.gz"
                          (effective_output "subset") 4096)
               = ProcExited [] 0) by reflexivity.
  assert (Ht : path_exists_after w (effective_output "subset") = true)
    by reflexivity.
  assert (Hs : is_Some (getsize_after w (effective_output "subset")))
    by (vm_compute; eauto).
  destruct (success_exactly_when w "cohort.beagle.gz" "keep.txt" "subset"
              false) as [Hiff Hbanner].
  assert (Hok : outcome run = inr tt).
  { apply Hiff. exists {[ "S2"; "S9" ]}, scenario_header, [1; 2; 3; 7; 8; 9],
      {[ "S2" ]}, {[ "S1"; "S3" ]}, 4096, []. auto. }
  split; [exact Hv|]. split; [exact Hp|]. split; [exact Ht|].
  split; [exact Hs|]. split; [exact Hok|]. apply Hbanner, Hok.
Defined.

(** X18. Every failure that the script handles is reported by exactly one
    error message, which names that failure; a run that succeeds and a run
    that ends in an uncaught exception print no error message. *)
Theorem failure_reported_once w input_file sample_list_file output_file
    remove_mode :
  let run := subset_beagle w input_file sample_list_file output_file
                           remove_mode in
  reported (trace run)
  = match outcome run with
    | inl Uncaught => []
    | inl f => [f]
    | inr _ => []
    end.
Proof.
  intros run.
  change (outcome run) with (obs_outcome (observe run)).
  change (reported (trace run)) with (obs_reported (observe run)).
  destruct (observe_run w input_file sample_list_file output_file remove_mode)
    as [[Hno Hs]|[[Hex (f & Hl & Hs)]|[[Hex (S & f & Hl & Hh & Hs)]
       |[[Hex (S & h & Hl & Hh & Hf & Hs)]
        |(S & h & cols & kept & removed & Hex & Hl & Hh & Hf & Hrest)]]]];
    fold run in Hs || fold run in Hrest.
  - by rewrite Hs.
  - rewrite Hs. simpl.
    by destruct (proj2 (read_sample_list_inl _ _ _ Hl)) as [-> | [-> | ->]].
  - rewrite Hs. simpl.
    by destruct (proj2 (read_header_inl _ _ _ Hh)) as [-> | ->].
  - by rewrite Hs.
  - destruct Hrest as [[Hsize Hs]|(sz & Hsize & Hrest)]; [by rewrite Hs|].
    cbv zeta in Hrest. destruct Hrest as (result & stdout & Hs & Hcases).
    rewrite Hs. simpl.
    by destruct Hcases as [[_ ->]|[(rc & _ & _ & ->)|[(_ & _ & ->)
      |[(_ & _ & _ & ->)|(_ & _ & _ & ->)]]]].
Qed.

Lemma failure_reported_once_witness :
  let w := uniform_world true (IoOk ["S2" +:+ NL]) (IoOk scenario_header)
                         (Some 4096) false (ProcExited [] 0) false None in
  let run := subset_beagle w "cohort.beagle" "keep.txt" "subset" false in
  outcome run = inl OutputNotCreated
  /\ reported (trace run) = [OutputNotCreated].
Proof.
  intros w run.
  assert (Hout : outcome run = inl OutputNotCreated)
    by (vm_compute; reflexivity).
  split; [exact Hout|].
  pose proof (failure_reported_once w "cohort.beagle" "keep.txt" "subset"
                false) as Hrep.
  cbv zeta in Hrep. fold run in Hrep. rewrite Hout in Hrep. exact Hrep.
Defined.

(** ** Reported counts *)

(** X19. The numbers of the report are consistent.  The kept and the
    removed samples are as many as the distinct sample IDs of the header;
    and the samples of the list are as many as those the report counts as
    found (the removed ones in remove mode, the kept ones in keep mode)
    together with those it warns about as not found. *)
Theorem reported_counts_add_up header_line sample_list remove_mode
    cols kept removed :
  find_columns_to_keep header_line sample_list remove_mode
  = inr (cols, kept, removed) ->
  size kept + size removed = size (header_samples header_line)
  /\ size (if remove_mode then sample_list ∩ removed else kept)
     + size (not_found remove_mode sample_list kept removed)
     = size sample_list.
Proof.
  intros Hret.
  destruct (not_found_absent _ _ _ _ _ _ Hret) as [Habs _].
  rewrite Habs. clear Habs.
  destruct (kept_by_mode _ _ _ _ _ _ Hret) as [-> ->].
  set (H := header_samples header_line).
  rewrite ?difference_twice, ?difference_of_part.
  split.
  - destruct remove_mode.
    + rewrite <- size_union by set_solver. f_equal.
      apply set_eq. intros x.
      destruct (decide (x ∈ sample_list)); set_solver.
    + rewrite <- size_union by set_solver. f_equal.
      apply set_eq. intros x.
      destruct (decide (x ∈ sample_list)); set_solver.
  - destruct remove_mode.
    + rewrite <- size_union by set_solver. f_equal.
      apply set_eq. intros x.
      destruct (decide (x ∈ H)); set_solver.
    + rewrite <- size_union by set_solver. f_equal.
      apply set_eq. intros x.
      destruct (decide (x ∈ H)); set_solver.
Qed.

Lemma reported_counts_add_up_witness :
  find_columns_to_keep repeated_header {[ "S1"; "S9" ]} true
  = inr ([1; 2; 3; 7; 8; 9], {[ "S2" ]}, {[ "S1" ]})
  /\ size ({[ "S2" ]} : gset string) + size ({[ "S1" ]} : gset string)
     = size (header_samples repeated_header)
  /\ size (({[ "S1"; "S9" ]} : gset string) ∩ {[ "S1" ]})
     + size (not_found true {[ "S1"; "S9" ]} {[ "S2" ]} {[ "S1" ]})
     = size ({[ "S1"; "S9" ]} : gset string).
Proof.
  assert (H : find_columns_to_keep repeated_header {[ "S1"; "S9" ]} true
              = inr ([1; 2; 3; 7; 8; 9], {[ "S2" ]}, {[ "S1" ]}))
    by (vm_compute; reflexivity).
  split; [exact H|].
  exact (reported_counts_add_up _ _ _ _ _ _ H).
Defined.

(** ** File names *)

Lemma append_last_inj (a b : string) (c d : ascii) :
  a +:+ String c EmptyString = b +:+ String d EmptyString -> a = b /\ c = d.
Proof.
  revert b. induction a as [|x a IH]; intros [|y b]; simpl.
  - by intros [= ->].
  - rewrite append_cons. intros [= _ Hb]. destruct b; discriminate.
  - rewrite append_cons. intros [= _ Ha]. destruct a; discriminate.
  - rewrite !append_cons. intros [= -> Hab].
    destruct (IH b Hab) as [-> ->]. done.
Qed.

Lemma endswith_append (s suffix : string) :
  PyStr.endswith (s +:+ suffix) suffix = true.
Proof. apply endswith_iff. by exists s. Qed.

Lemma endswith_beagle_not_gz (s : string) :
  PyStr.endswith s ".beagle" = true -> PyStr.endswith s ".gz" = false.
Proof.
  intros Hb. apply endswith_iff in Hb as [p ->].
  destruct (PyStr.endswith (p +:+ ".beagle") ".gz") eqn:Hgz; [|reflexivity].
  apply endswith_iff in Hgz as [q Hq]. exfalso.
  change ".beagle" with (".beagl" +:+ "e") in Hq.
  change ".gz" with (".g" +:+ "z") in Hq.
  rewrite <- !append_assoc in Hq.
  apply append_last_inj in Hq as [_ Hq]. discriminate.
Qed.

(** X20. The name the output is written to always ends with [.beagle] or
    with [.beagle.gz], whatever name the caller gave, and giving that name
    again changes nothing. *)
Theorem effective_output_has_suffix output_file :
  (PyStr.endswith (effective_output output_file) ".beagle" = true
   \/ PyStr.endswith (effective_output output_file) ".beagle.gz" = true)
  /\ effective_output (effective_output output_file)
     = effective_output output_file.
Proof.
  assert (Hsuffix :
    PyStr.endswith (effective_output output_file) ".beagle" = true
    \/ PyStr.endswith (effective_output output_file) ".beagle.gz" = true).
  { unfold effective_output.
    destruct (PyStr.endswith output_file ".beagle") eqn:Hb; simpl; [auto|].
    destruct (PyStr.endswith output_file ".beagle.gz") eqn:Hg; simpl; [auto|].
    left. apply endswith_append. }
  split; [exact Hsuffix|].
  unfold effective_output at 1.
  by destruct Hsuffix as [-> | ->]; simpl; rewrite ?andb_false_r.
Qed.

(** X21. The output is compressed exactly when the name the caller gave
    ends with [.beagle.gz]: a name that only ends with [.gz] gets the
    default suffix and is written as plain text. *)
Theorem output_compressed_iff output_file :
  output_is_gz (effective_output output_file)
  = PyStr.endswith output_file ".beagle.gz".
Proof.
  rewrite output_is_gz_suffix. unfold effective_output.
  destruct (PyStr.endswith output_file ".beagle.gz") eqn:Hg.
  - rewrite andb_false_r. by apply endswith_beagle_gz.
  - destruct (PyStr.endswith output_file ".beagle") eqn:Hb; simpl.
    + by apply endswith_beagle_not_gz.
    + apply endswith_beagle_not_gz, endswith_append.
Qed.

Lemma prefix_append (p r : string) : String.prefix p (p +:+ r) = true.
Proof.
  induction p as [|c p IH]; [by destruct r|].
  rewrite append_cons. simpl. destruct (ascii_dec c c); [exact IH|done].
Qed.

(** X22. The input is read through [zcat] exactly when its name ends with
    [.gz]: that is when the pipeline begins with the words [zcat] and the
    input name. *)
Theorem input_decompressed_iff columns input_file output_file has_pv
    file_size :
  String.prefix ("zcat " +:+ input_file)
                (pipeline columns input_file output_file has_pv file_size)
  = PyStr.endswith input_file ".gz".
Proof.
  rewrite pipeline_redirect. unfold pipeline_front, input_is_gz.
  destruct (PyStr.endswith input_file ".gz").
  - rewrite !append_assoc. rewrite <- (append_assoc "zcat " input_file).
    apply prefix_append.
  - unfold pv_cmd. destruct has_pv; reflexivity.
Qed.

(** ** The AWK program *)

Lemma pretty_N_char_digit x : is_digit (pretty_N_char x) = true.
Proof. unfold pretty_N_char. by repeat case_match. Qed.

Lemma pretty_N_go_digits x s :
  all_digits s = true -> all_digits (pretty_N_go x s) = true.
Proof.
  revert s. induction (N.lt_wf_0 x) as [x _ IH]; intros s Hs.
  assert (x = 0 \/ 0 < x)%N as [->|Hpos] by lia.
  - by rewrite pretty_N_go_0.
  - rewrite pretty_N_go_step by done. apply IH.
    + by apply N.div_lt.
    + simpl. by rewrite pretty_N_char_digit, Hs.
Qed.

Lemma pretty_nat_digits (n : nat) : all_digits (pretty n) = true.
Proof.
  unfold pretty, pretty_nat, pretty, pretty_N.
  case_decide; [reflexivity|]. by apply pretty_N_go_digits.
Qed.

Lemma digits_then_other (d1 d2 r1 r2 : string) (c1 c2 : ascii) :
  all_digits d1 = true -> all_digits d2 = true ->
  is_digit c1 = false -> is_digit c2 = false ->
  d1 +:+ String c1 r1 = d2 +:+ String c2 r2 ->
  d1 = d2 /\ c1 = c2 /\ r1 = r2.
Proof.
  revert d2. induction d1 as [|x d1 IH]; intros [|y d2] H1 H2 Hc1 Hc2.
  - by intros [= -> ->].
  - rewrite append_cons. intros [= -> _]. simpl in H2.
    apply andb_true_iff in H2 as [H2 _]. congruence.
  - rewrite append_cons. intros [= -> _]. simpl in H1.
    apply andb_true_iff in H1 as [H1 _]. congruence.
  - rewrite !append_cons. intros [= -> Heq]. simpl in H1, H2.
    apply andb_true_iff in H1 as [_ H1]. apply andb_true_iff in H2 as [_ H2].
    destruct (IH d2 H1 H2 Hc1 Hc2 Heq) as (-> & -> & ->). done.
Qed.

Lemma digits_without_other (d1 d2 r : string) (c : ascii) :
  all_digits d1 = true -> is_digit c = false ->
  d1 <> d2 +:+ String c r.
Proof.
  revert d2. induction d1 as [|x d1 IH]; intros d2 H1 Hc Heq.
  - destruct d2; discriminate.
  - simpl in H1. apply andb_true_iff in H1 as [Hx H1].
    destruct d2 as [|y d2].
    + simpl in Heq. injection Heq as -> _. congruence.
    + rewrite append_cons in Heq. injection Heq as _ Heq.
      by apply (IH d2).
Qed.

Lemma append_nil_r (s : string) : s +:+ EmptyString = s.
Proof.
  induction s as [|c s IH]; [reflexivity|]. rewrite append_cons.
  by rewrite IH.
Qed.

Lemma column_refs_cons col cols :
  column_refs (col :: cols)
  = "$" +:+ pretty col
    +:+ match cols with
        | [] => EmptyString
        | _ :: _ => "," +:+ column_refs cols
        end.
Proof.
  unfold column_refs. destruct cols as [|col' cols]; cbn [map PyStr.join].
  - by rewrite append_nil_r.
  - by rewrite !append_assoc.
Qed.

Lemma column_refs_inj cols1 cols2 :
  column_refs cols1 = column_refs cols2 -> cols1 = cols2.
Proof.
  revert cols2. induction cols1 as [|a cols1 IH]; intros [|b cols2].
  - done.
  - rewrite column_refs_cons. discriminate.
  - rewrite column_refs_cons. discriminate.
  - rewrite !column_refs_cons. intros Heq.
    apply (String.app_inj "$") in Heq.
    pose proof (pretty_nat_digits a) as Ha.
    pose proof (pretty_nat_digits b) as Hb.
    destruct cols1 as [|a' cols1], cols2 as [|b' cols2].
    + rewrite !append_nil_r in Heq. by apply (inj pretty) in Heq as ->.
    + exfalso. rewrite append_nil_r in Heq.
      by apply (digits_without_other (pretty a) (pretty b)
                  (column_refs (b' :: cols2)) ",").
    + exfalso. rewrite append_nil_r in Heq. symmetry in Heq.
      by apply (digits_without_other (pretty b) (pretty a)
                  (column_refs (a' :: cols1)) ",").
    + destruct (digits_then_other (pretty a) (pretty b)
                  (column_refs (a' :: cols1)) (column_refs (b' :: cols2))
                  "," "," Ha Hb eq_refl eq_refl Heq) as (Hab & _ & Hrest).
      apply (inj pretty) in Hab as ->. f_equal. by apply IH.
Qed.

Lemma append_same_length_inj (x y b b' : string) :
  String.length x = String.length y ->
  x +:+ b = y +:+ b' -> x = y /\ b = b'.
Proof.
  revert y. induction x as [|c x IH]; intros [|d y] Hlen; try discriminate.
  - intros Heq. change (b = b') in Heq. by subst.
  - rewrite !append_cons. intros [= -> Heq]. simpl in Hlen.
    destruct (IH y) as [-> ->]; [lia|done|done].
Qed.

Lemma append_cancel (a x y b : string) :
  a +:+ x +:+ b = a +:+ y +:+ b -> x = y.
Proof.
  intros Heq. apply (String.app_inj a) in Heq.
  assert (Hlen : String.length x = String.length y).
  { apply (f_equal String.length) in Heq. rewrite !append_length in Heq. lia. }
  by destruct (append_same_length_inj x y b b Hlen Heq).
Qed.

(** X23. The AWK program names exactly the selected columns, in their
    order: two column lists give the same program, or the same command for
    the same files, only when they are the same list. *)
Theorem command_determines_columns w cols1 cols2 input_file output_file
    file_size :
  (awk_script cols1 = awk_script cols2 <-> cols1 = cols2)
  /\ (command w cols1 input_file output_file file_size
      = command w cols2 input_file output_file file_size
      <-> cols1 = cols2).
Proof.
  assert (Hawk : awk_script cols1 = awk_script cols2 -> cols1 = cols2).
  { unfold awk_script. intros Heq.
    do 5 apply String.app_inj in Heq.
    apply column_refs_inj.
    assert (Hlen : String.length (column_refs cols1)
                   = String.length (column_refs cols2)).
    { apply (f_equal String.length) in Heq.
      rewrite !append_length in Heq. lia. }
    by destruct (append_same_length_inj _ _ _ _ Hlen Heq). }
  split; [split; [exact Hawk|by intros ->]|].
  split; [|by intros ->].
  unfold command. intros [= Heq]. apply Hawk.
  rewrite !pipeline_redirect in Heq. unfold pipeline_front in Heq.
  rewrite !append_assoc in Heq.
  destruct (input_is_gz input_file); rewrite ?append_assoc in Heq.
  - do 4 apply String.app_inj in Heq.
    change (" | awk '" +:+ awk_script cols1 +:+ ?r)
      with (" | awk '" +:+ awk_script cols1 +:+ r) in Heq.
    by apply append_cancel in Heq.
  - do 3 apply String.app_inj in Heq.
    by apply append_cancel in Heq.
Qed.
